(** * Royal Restaurant API: the order and payment flow of [main.py]

    A shallow embedding of the FastAPI handlers [create_order],
    [payment_success], [restore_backup] and of the services they call
    ([DataManager], [PayPalService], [TelegramService]), followed by the
    properties of the order lifecycle.

    Python [float] is IEEE 754 binary64, which is what Rocq's primitive
    [float] is: prices and totals are computed with the very operations the
    interpreter performs.  Decimal literals denote the nearest binary64
    value, as they do in Python.

    A handler is run from its first line to its last against one state of
    the data file: requests are taken one at a time.  What another request
    writes while a handler awaits the gateway is not part of a run. *)

From Stdlib Require Import ZArith Floats.PrimFloat Floats.SpecFloat Floats.FloatOps.
From Stdlib Require Import Ascii DecimalString DecimalZ.
From stdpp Require Import base option list strings.

Set Warnings "-inexact-float".

(** ** Exceptions and results *)

Inductive Exn :=
| KeyError (key : string)
| StopIteration
| JSONDecodeError
| OverflowError
| HTTPError                                   (* httpx: transport or status error *)
| HTTPException (status_code : Z) (detail : string).

Inductive Outcome (A : Type) :=
| Return (a : A)
| Raise (e : Exn).
Arguments Return {A} a.
Arguments Raise {A} e.

(** Sequencing of computations that may raise. *)
Definition and_then {A B} (o : Outcome A) (k : A → Outcome B) : Outcome B :=
  match o with
  | Return a => k a
  | Raise e => Raise e
  end.

Definition outcome_map {A B} (f : A → B) (o : Outcome A) : Outcome B :=
  and_then o (λ a, Return (f a)).

Declare Scope outcome_scope.
Delimit Scope outcome_scope with outcome.
Notation "x <-- o ;; k" := (and_then o (λ x, k))
  (at level 100, o at next level, right associativity) : outcome_scope.

(** ** Numbers *)

(** The binary64 value nearest to [m * 2^e], ties to even; [OverflowError]
    where that rounding leaves the range of binary64, which is where
    Python's conversions from [int] raise it. *)
Definition nearest_float (m e : Z) : Outcome float :=
  let f := SF2Prim (binary_normalize FloatOps.prec FloatOps.emax m e false) in
  if PrimFloat.is_infinity f then Raise OverflowError else Return f.

(** Python converts an [int] operand to [float] before mixing it with a
    float: the nearest binary64 value, which is the integer itself up to
    [2^53]; "int too large to convert to float" beyond the range. *)
Definition float_of_int (z : Z) : Outcome float := nearest_float z 0.

(** [n / 100] for an [int] [n]: true division of two integers gives the
    binary64 value nearest to the exact quotient, rounded once ("integer
    division result too large for a float" beyond the range).  The quotient
    is taken with 64 binary places and a sticky bit for the remainder, which
    leaves the rounding to 53 bits that of the exact quotient. *)
Definition div_100 (n : Z) : Outcome float :=
  let scaled := (Z.abs n * 2 ^ 64)%Z in
  let sticky := if (scaled mod 100 =? 0)%Z then 0%Z else 1%Z in
  outcome_map (λ f, if (n <? 0)%Z then PrimFloat.opp f else f)
              (nearest_float (2 * (scaled / 100) + sticky) (-65)).

(** [str(n)] for an integer [n]. *)
Definition str_of_int (z : Z) : string := NilZero.string_of_int (Z.to_int z).

(** [s.rstrip('/')]. *)
Fixpoint rstrip_slash (s : string) : string :=
  match s with
  | EmptyString => EmptyString
  | String c rest =>
      match rstrip_slash rest with
      | EmptyString => if Ascii.eqb c "/"%char then EmptyString else String c EmptyString
      | kept => String c kept
      end
  end.

(** Truth value of an optional string: [None] and [''] are false. *)
Definition truthy (s : option string) : bool :=
  match s with
  | None | Some EmptyString => false
  | Some _ => true
  end.

Definition OMR_TO_USD_RATE : float := 2.6%float.

(** Two decimal digits of a number below 100. *)
Definition two_digits (n : Z) : string :=
  if (n <? 10)%Z then "0" +:+ str_of_int n else str_of_int n.

(** [f"{x:.2f}"]: the exact value of the float rounded to hundredths, ties
    to even, as the interpreter's correctly rounded conversion does. *)
Definition format_2f (x : float) : string :=
  match Prim2SF x with
  | S754_nan => "nan"
  | S754_infinity s => if s then "-inf" else "inf"
  | S754_zero s => if s then "-0.00" else "0.00"
  | S754_finite s m e =>
      let hundredths :=
        if (0 <=? e)%Z then (Zpos m * 2 ^ e * 100)%Z
        else
          let den := (2 ^ (- e))%Z in
          let q := (Zpos m * 100 / den)%Z in
          let r := (Zpos m * 100 mod den)%Z in
          if (den <? 2 * r)%Z || ((den =? 2 * r)%Z && Z.odd q) then (q + 1)%Z else q in
      (if s then "-" else "") +:+ str_of_int (hundredths / 100) +:+ "."
        +:+ two_digits (hundredths mod 100)
  end.

(** ** Data models *)

Module Translatable.
Record t := mk { fa : string; en : string; ar : string }.
End Translatable.

Module Product.
Record t := mk {
  id : string;
  name : Translatable.t;
  description : Translatable.t;
  price : float;
  discount : Z;
  category : string;
  image : string
}.
End Product.

Module Category.
Record t := mk { id : string; name : Translatable.t }.
End Category.

Module CartItem.
Record t := mk { id : string; quantity : Z }.
End CartItem.

Module Customer.
Record t := mk {
  firstName : string;
  lastName : string;
  phone : string;
  address : string;
  location : option string;
  notes : option string;
  contactMethod : string;
  deliveryType : string
}.
End Customer.

Module OrderRequest.
Record t := mk { customer : Customer.t; items : list CartItem.t }.
End OrderRequest.

(** One entry of [full_items]. *)
Module LineItem.
Record t := mk {
  id : string;
  name : Translatable.t;
  price : float;
  quantity : Z
}.
End LineItem.

(** An order as [create_order] builds it and the store keeps it. *)
Module Order.
Record t := mk {
  id : string;
  date : string;
  customer : Customer.t;
  items : list LineItem.t;
  total_omr : float;
  total_usd : float;
  status : string;
  paid : bool;
  paypal_order_id : string
}.

Definition set_status (s : string) (o : t) : t :=
  mk (id o) (date o) (customer o) (items o) (total_omr o) (total_usd o)
     s (paid o) (paypal_order_id o).

Definition set_paid (b : bool) (o : t) : t :=
  mk (id o) (date o) (customer o) (items o) (total_omr o) (total_usd o)
     (status o) b (paypal_order_id o).
End Order.

(** The store document.  Every writer of the file provides the keys
    [products] and [categories]: [ensure_data_file], [seed_data], and
    [restore_backup], which tests for exactly these two.  The key [orders] is
    not tested on restore, so a stored document may lack it. *)
Module Document.
Record t := mk {
  products : list Product.t;
  categories : list Category.t;
  orders : option (list Order.t)
}.

Definition set_orders (os : list Order.t) (d : t) : t :=
  mk (products d) (categories d) (Some os).
End Document.

(** [{"products": [], "categories": [], "orders": []}] *)
Definition empty_document : Document.t := Document.mk [] [] (Some []).

(** ** Pricing (the loop at the head of [create_order]) *)

(** [next((p for p in data["products"] if p["id"] == item.id), None)] *)
Definition find_product (products : list Product.t) (pid : string) : option Product.t :=
  snd <$> list_find (λ p, Product.id p = pid) products.

(** [prod["price"] * (1 - prod["discount"] / 100)] *)
Definition final_price (prod : Product.t) : Outcome float :=
  (ratio <-- div_100 (Product.discount prod) ;;
   Return (Product.price prod * (1 - ratio))%float)%outcome.

(** The loop body, on the pair [(calculated_total, full_items)]. *)
Definition price_item (products : list Product.t)
    (acc : float * list LineItem.t) (item : CartItem.t)
    : Outcome (float * list LineItem.t) :=
  match find_product products (CartItem.id item) with
  | Some prod =>
      (price <-- final_price prod ;;
       quantity <-- float_of_int (CartItem.quantity item) ;;
       Return ((acc.1 + price * quantity)%float,
               acc.2 ++ [LineItem.mk (Product.id prod) (Product.name prod) price
                                     (CartItem.quantity item)]))%outcome
  | None => Return acc
  end.

(** [for item in order_req.items: ...]: an exception ends the loop. *)
Fixpoint price_loop (products : list Product.t) (items : list CartItem.t)
    (acc : float * list LineItem.t) : Outcome (float * list LineItem.t) :=
  match items with
  | [] => Return acc
  | item :: rest => and_then (price_item products acc item) (price_loop products rest)
  end.

(** What the pricing block of [create_order] leaves in its three variables. *)
Module Priced.
Record t := mk {
  calculated_total : float;
  full_items : list LineItem.t;
  total_usd : float
}.
End Priced.

(** The block from [calculated_total = 0] to [total_usd = ...].  The total
    starts as the integer [0]; adding a float to it converts it to [0.0]
    first, and [0 * 2.6] is [0.0]. *)
Definition price_order (products : list Product.t) (items : list CartItem.t)
    : Outcome Priced.t :=
  (acc <-- price_loop products items (0%float, []) ;;
   Return (Priced.mk acc.1 acc.2 (acc.1 * OMR_TO_USD_RATE)%float))%outcome.

(** The total as the specification words it: the sum, in cart order, of
    [catalog_price * (1 - discount/100) * quantity]. *)
Definition line_total (prod : Product.t) (item : CartItem.t) : Outcome float :=
  (ratio <-- div_100 (Product.discount prod) ;;
   quantity <-- float_of_int (CartItem.quantity item) ;;
   Return (Product.price prod * (1 - ratio) * quantity)%float)%outcome.

Definition float_sum (xs : list float) : float :=
  fold_left PrimFloat.add xs 0%float.

(** The values of a list of computations, or the first exception. *)
Fixpoint all_values {A} (os : list (Outcome A)) : Outcome (list A) :=
  match os with
  | [] => Return []
  | o :: rest => (a <-- o ;; values <-- all_values rest ;; Return (a :: values))%outcome
  end.

Definition spec_base_total (prods : list Product.t) (items : list CartItem.t)
    : Outcome float :=
  outcome_map float_sum (all_values (zip_with line_total prods items)).

(** [items] resolves to [prods]: each cart line finds its product. *)
Definition resolves (products : list Product.t)
    (items : list CartItem.t) (prods : list Product.t) : Prop :=
  Forall2 (λ item prod, find_product products (CartItem.id item) = Some prod) items prods.

Definition resolvable (products : list Product.t) (item : CartItem.t) : Prop :=
  is_Some (find_product products (CartItem.id item)).

(** ** Replies of the outside world, and the request monad *)

(** What an outbound HTTP call comes back with: a decoded answer, or an
    exception ([raise_for_status], a transport error, a malformed body). *)
Inductive HttpReply (A : Type) :=
| Reply (a : A)
| Fault (e : Exn).
Arguments Reply {A} a.
Arguments Fault {A} e.

(** What [open(DATA_FILE, 'w')] followed by [json.dump] does to the file:
    it is rewritten; [open] fails and the file stays as it was; or the dump
    stops after [open] has truncated the file, leaving text that is not
    JSON.  (A dump cut inside a multi-byte character, which the next read
    would refuse with [UnicodeDecodeError], is not among these outcomes.) *)
Inductive WriteOutcome := Written | OpenRefused | DumpInterrupted.

Module Link.
Record t := mk { href : string; rel : string }.
End Link.

(** The body PayPal answers a checkout creation with. *)
Module PayPalOrder.
Record t := mk { id : string; links : list Link.t }.
End PayPalOrder.

(** Module-level configuration, read from the environment at import. *)
Record Config := {
  ADMIN_TOKEN : string;
  TELEGRAM_BOT_TOKEN : option string;
  TELEGRAM_CHAT_ID : option string;
  PAYPAL_CLIENT_ID : option string;
  PAYPAL_SECRET : option string
}.

(** What the world outside the process answers during one request. *)
Record Outside := {
  clock_ms : Z;                               (* int(datetime.now().timestamp() * 1000) *)
  clock_iso : string;                         (* datetime.now().isoformat() *)
  oauth_reply : HttpReply string;             (* POST /v1/oauth2/token *)
  checkout_reply : HttpReply PayPalOrder.t;   (* POST /v2/checkout/orders *)
  capture_reply : HttpReply unit;             (* POST /v2/checkout/orders/{id}/capture *)
  telegram_reply : HttpReply unit;            (* POST /bot.../sendMessage *)
  disk : WriteOutcome
}.

(** The content of [data.json]: [load_data] tells a missing file
    ([FileNotFoundError]) and an undecodable one ([JSONDecodeError]) from a
    document. *)
Inductive DataFile :=
| FileAbsent
| FileGarbled
| FileJson (d : Document.t).

(** What a request does that is visible from outside, in order. *)
Inductive Event :=
| LogError (msg : string)
| LogWarning (msg : string)
| FileWrite (d : Document.t) (r : WriteOutcome)
| HttpToken (client_id secret : string)
| HttpCheckout (authorization : string) (value : string) (return_url cancel_url : string)
| HttpCapture (authorization : string) (order_id : string)
| HttpTelegram (bot_token chat_id : string) (order : Order.t).

Record World := { data_file : DataFile; journal : list Event }.

Inductive Response :=
| JsonApproval (approval_url : string)
| JsonStatus (status : string)
| JsonOrder (order : Order.t)
| RedirectResponse (url : string).

(** A handler: state passing over the file and the journal, and an
    exception or a value.  A raised exception keeps the effects made so far. *)
Definition M (A : Type) : Type := World → Outcome A * World.

(** A computation that touches neither file nor journal. *)
Definition lift {A} (o : Outcome A) : M A := λ w, (o, w).

Definition ret {A} (a : A) : M A := λ w, (Return a, w).

Definition bind {A B} (m : M A) (k : A → M B) : M B :=
  λ w, match m w with
       | (Return a, w') => k a w'
       | (Raise e, w') => (Raise e, w')
       end.

Definition raise {A} (e : Exn) : M A := λ w, (Raise e, w).

(** [try: body / except Exception as e: handler e] *)
Definition try_except {A} (body : M A) (handler : Exn → M A) : M A :=
  λ w, match body w with
       | (Raise e, w') => handler e w'
       | returned => returned
       end.

Definition emit (ev : Event) : M unit :=
  λ w, (Return tt, {| data_file := data_file w; journal := journal w ++ [ev] |}).

Declare Scope handler_scope.
Delimit Scope handler_scope with handler.
Notation "x <- m ;; k" := (bind m (λ x, k))
  (at level 100, m at next level, right associativity) : handler_scope.
Notation "m ;;; k" := (bind m (λ _, k))
  (at level 100, right associativity) : handler_scope.
Local Open Scope handler_scope.

(** ** Services and handlers *)

Section Handlers.

Variable cfg : Config.
Variable out : Outside.

(** *** DataManager *)

(** [json.load], with the default document of the [except] branch. *)
Definition read_document (f : DataFile) : Document.t :=
  match f with
  | FileJson d => d
  | FileAbsent | FileGarbled => empty_document
  end.

Definition load_data : M Document.t :=
  λ w, (Return (read_document (data_file w)), w).

Definition save_data (data : Document.t) : M unit :=
  λ w, match disk out with
       | Written =>
           (Return tt, {| data_file := FileJson data;
                          journal := journal w ++ [FileWrite data Written] |})
       | OpenRefused =>
           (Return tt, {| data_file := data_file w;
                          journal := journal w ++ [FileWrite data OpenRefused;
                                                   LogError "Error saving data"] |})
       | DumpInterrupted =>
           (Return tt, {| data_file := FileGarbled;
                          journal := journal w ++ [FileWrite data DumpInterrupted;
                                                   LogError "Error saving data"] |})
       end.

(** [data["orders"]] *)
Definition get_orders (data : Document.t) : M (list Order.t) :=
  match Document.orders data with
  | Some os => ret os
  | None => raise (KeyError "orders")
  end.

(** *** PayPalService *)

Definition get_access_token : M (option string) :=
  if negb (truthy (PAYPAL_CLIENT_ID cfg)) || negb (truthy (PAYPAL_SECRET cfg)) then
    emit (LogError "PayPal credentials missing") ;;;
    ret None
  else
    emit (HttpToken (default "" (PAYPAL_CLIENT_ID cfg)) (default "" (PAYPAL_SECRET cfg))) ;;;
    match oauth_reply out with
    | Reply access_token => ret (Some access_token)
    | Fault e => emit (LogError "PayPal Token Error") ;;; raise e
    end.

(** [f"Bearer {token}"]: the token [None] formats as [None]. *)
Definition bearer (token : option string) : string :=
  "Bearer " +:+ default "None" token.

(** The event carries the [value] of the amount, [f"{total_usd:.2f}"]. *)
Definition create_payment (total_usd : float) (return_url cancel_url : string)
    : M PayPalOrder.t :=
  token <- get_access_token ;;
  emit (HttpCheckout (bearer token) (format_2f total_usd) return_url cancel_url) ;;;
  match checkout_reply out with
  | Reply body => ret body
  | Fault e => raise e
  end.

Definition capture_payment (order_id : string) : M unit :=
  token <- get_access_token ;;
  emit (HttpCapture (bearer token) order_id) ;;;
  match capture_reply out with
  | Reply body => ret body
  | Fault e => raise e
  end.

(** *** TelegramService *)

(** The message text is a function of the order; the event carries the
    order it is rendered from. *)
Definition send_order (order : Order.t) : M unit :=
  if negb (truthy (TELEGRAM_BOT_TOKEN cfg)) || negb (truthy (TELEGRAM_CHAT_ID cfg)) then
    emit (LogWarning "Telegram credentials missing, skipping notification")
  else
    emit (HttpTelegram (default "" (TELEGRAM_BOT_TOKEN cfg))
                       (default "" (TELEGRAM_CHAT_ID cfg)) order) ;;;
    match telegram_reply out with
    | Reply _ => ret tt
    | Fault e => emit (LogError "Telegram error")
    end.

(** *** Routes *)

(** [verify_admin], the dependency of the admin routes. *)
Definition verify_admin (x_admin_token : option string) : M bool :=
  if decide (x_admin_token = Some (ADMIN_TOKEN cfg)) then ret true
  else raise (HTTPException 403 "Invalid Admin Token").

(** The uploaded file as [json.loads] sees it: not JSON at all, or an
    object with some of the three keys of a store document.  (JSON values
    that are not objects are left out.) *)
Inductive Upload :=
| NotJson
| JsonObject (products : option (list Product.t))
             (categories : option (list Category.t))
             (orders : option (list Order.t)).

(** [POST /api/admin/restore] *)
Definition restore_backup (x_admin_token : option string) (content : Upload)
    : M Response :=
  verify_admin x_admin_token ;;;
  answered <- try_except
    (match content with
     | NotJson => raise JSONDecodeError
     | JsonObject (Some products) (Some categories) orders =>
         save_data (Document.mk products categories orders) ;;;
         ret (Some (JsonStatus "success"))
     | JsonObject _ _ _ => ret None
     end)
    (λ _, ret None) ;;
  match answered with
  | Some response => ret response
  | None => raise (HTTPException 400 "Invalid backup file")
  end.

(** [next(link["href"] for link in links if link["rel"] == "approve")] *)
Definition approve_href (links : list Link.t) : M string :=
  match list_find (λ link, Link.rel link = "approve") links with
  | Some (_, link) => ret (Link.href link)
  | None => raise StopIteration
  end.

(** [return_url] and [cancel_url] of [create_order]. *)
Definition return_url (base_url order_id : string) : string :=
  rstrip_slash base_url +:+ "/api/payment/success?oid=" +:+ order_id.

Definition cancel_url (base_url : string) : string :=
  rstrip_slash base_url +:+ "/api/payment/cancel".

(** The pending order [create_order] builds. *)
Definition new_order (order_id : string) (order_req : OrderRequest.t)
    (full_items : list LineItem.t) (calculated_total total_usd : float)
    (paypal_order : PayPalOrder.t) : Order.t :=
  Order.mk order_id (clock_iso out) (OrderRequest.customer order_req) full_items
           calculated_total total_usd "pending_payment" false
           (PayPalOrder.id paypal_order).

(** [POST /api/order/create]; [base_url] is [str(request.base_url)]. *)
Definition create_order (base_url : string) (order_req : OrderRequest.t)
    : M Response :=
  data <- load_data ;;
  priced <- lift (price_order (Document.products data) (OrderRequest.items order_req)) ;;
  let calculated_total := Priced.calculated_total priced in
  let full_items := Priced.full_items priced in
  let total_usd := Priced.total_usd priced in
  let order_id := str_of_int (clock_ms out) in
  try_except
    (paypal_order <- create_payment total_usd (return_url base_url order_id)
                                    (cancel_url base_url) ;;
     approve_link <- approve_href (PayPalOrder.links paypal_order) ;;
     let order := new_order order_id order_req full_items calculated_total
                            total_usd paypal_order in
     orders <- get_orders data ;;
     save_data (Document.set_orders (orders ++ [order]) data) ;;;
     ret (JsonApproval approve_link))
    (λ e,
     emit (LogError "Payment Creation Error") ;;;
     raise (HTTPException 500 "Payment creation failed")).

(** [GET /api/payment/success] *)
Definition payment_success (oid token : string) : M Response :=
  data <- load_data ;;
  orders <- get_orders data ;;
  match list_find (λ o, Order.id o = oid) orders with
  | None => ret (RedirectResponse "/?error=order_not_found")
  | Some (order_idx, order) =>
      try_except
        (capture_payment token ;;;
         let order := Order.set_paid true (Order.set_status "confirmed" order) in
         save_data (Document.set_orders (<[order_idx := order]> orders) data) ;;;
         try_except (send_order order) (λ e, emit (LogError "Telegram Failed")) ;;;
         ret (RedirectResponse ("/success?oid=" +:+ oid)))
        (λ e,
         emit (LogError "Capture Error") ;;;
         ret (RedirectResponse "/?error=payment_failed"))
  end.

(** [GET /api/payment/cancel] *)
Definition payment_cancel : M Response :=
  ret (RedirectResponse "/?error=payment_cancelled").

(** [GET /api/order/{oid}] *)
Definition get_order_detail (oid : string) : M Response :=
  data <- load_data ;;
  orders <- get_orders data ;;
  match list_find (λ o, Order.id o = oid) orders with
  | Some (_, order) => ret (JsonOrder order)
  | None => raise (HTTPException 404 "Not found")
  end.

End Handlers.

(** ** Vocabulary of the statements *)

Global Instance resolvable_dec products item : Decision (resolvable products item).
Proof. unfold resolvable. apply _. Defined.

(** The gateway call a creation request makes once its cart is priced; a
    cart that does not price raises before any call. *)
Definition session_of_request (cfg : Config) (out : Outside)
    (base_url : string) (order_req : OrderRequest.t) (w : World)
    : Outcome PayPalOrder.t * World :=
  match price_order (Document.products (read_document (data_file w)))
                    (OrderRequest.items order_req) with
  | Return priced =>
      create_payment cfg out (Priced.total_usd priced)
        (return_url base_url (str_of_int (clock_ms out))) (cancel_url base_url) w
  | Raise e => (Raise e, w)
  end.

(** The file holds the document [before] with one more order at the end of
    its orders, pending and unpaid. *)
Definition order_appended (before : Document.t) (after : DataFile) : Prop :=
  ∃ os o,
    Document.orders before = Some os
    ∧ after = FileJson (Document.set_orders (os ++ [o]) before)
    ∧ Order.status o = "pending_payment"
    ∧ Order.paid o = false.

(** The order [create_order] builds for a request, given what its cart
    was priced and the session the gateway opened. *)
Definition order_of_request (out : Outside) (order_req : OrderRequest.t)
    (priced : Priced.t) (paypal_order : PayPalOrder.t) : Order.t :=
  new_order out (str_of_int (clock_ms out)) order_req (Priced.full_items priced)
            (Priced.calculated_total priced) (Priced.total_usd priced) paypal_order.

(** The world after the [except] branch of [create_order] has logged. *)
Definition creation_failed (w : World) : World :=
  {| data_file := data_file w;
     journal := journal w ++ [LogError "Payment Creation Error"] |}.

(** The order a successful capture turns [o] into. *)
Definition confirmed (o : Order.t) : Order.t :=
  Order.set_paid true (Order.set_status "confirmed" o).

Definition is_capture (ev : Event) : bool :=
  match ev with HttpCapture _ _ => true | _ => false end.

Definition is_write (ev : Event) : bool :=
  match ev with FileWrite _ _ => true | _ => false end.

Definition is_notification (ev : Event) : bool :=
  match ev with HttpTelegram _ _ _ => true | _ => false end.

Definition order_ids (os : list Order.t) : list string := Order.id <$> os.

(** Configuration and outside world with another notification channel. *)
Definition with_channel (bot_token chat_id : option string) (cfg : Config) : Config :=
  {| ADMIN_TOKEN := ADMIN_TOKEN cfg;
     TELEGRAM_BOT_TOKEN := bot_token;
     TELEGRAM_CHAT_ID := chat_id;
     PAYPAL_CLIENT_ID := PAYPAL_CLIENT_ID cfg;
     PAYPAL_SECRET := PAYPAL_SECRET cfg |}.

Definition with_delivery (reply : HttpReply unit) (out : Outside) : Outside :=
  {| clock_ms := clock_ms out;
     clock_iso := clock_iso out;
     oauth_reply := oauth_reply out;
     checkout_reply := checkout_reply out;
     capture_reply := capture_reply out;
     telegram_reply := reply;
     disk := disk out |}.

(** The catalog and cart of the worked example. *)
Definition example_name : Translatable.t := Translatable.mk "kabab" "Kebab" "kabab".

Definition example_P1 : Product.t :=
  Product.mk "P1" example_name example_name 10.0 10 "2" "p1.jpg".

Definition example_cart : list CartItem.t := [CartItem.mk "P1" 2].

Definition with_disk (r : WriteOutcome) (out : Outside) : Outside :=
  {| clock_ms := clock_ms out;
     clock_iso := clock_iso out;
     oauth_reply := oauth_reply out;
     checkout_reply := checkout_reply out;
     capture_reply := capture_reply out;
     telegram_reply := telegram_reply out;
     disk := r |}.

Definition with_capture (reply : HttpReply unit) (out : Outside) : Outside :=
  {| clock_ms := clock_ms out;
     clock_iso := clock_iso out;
     oauth_reply := oauth_reply out;
     checkout_reply := checkout_reply out;
     capture_reply := reply;
     telegram_reply := telegram_reply out;
     disk := disk out |}.

Definition with_checkout (reply : HttpReply PayPalOrder.t) (out : Outside) : Outside :=
  {| clock_ms := clock_ms out;
     clock_iso := clock_iso out;
     oauth_reply := oauth_reply out;
     checkout_reply := reply;
     capture_reply := capture_reply out;
     telegram_reply := telegram_reply out;
     disk := disk out |}.

(** A configured process, a cooperative outside world, and a store with
    one pending order: the inputs the statements are tried on. *)
Definition example_cfg : Config :=
  {| ADMIN_TOKEN := "mamad1390";
     TELEGRAM_BOT_TOKEN := Some "bot-token";
     TELEGRAM_CHAT_ID := Some "chat-id";
     PAYPAL_CLIENT_ID := Some "client-id";
     PAYPAL_SECRET := Some "client-secret" |}.

Definition example_session : PayPalOrder.t :=
  PayPalOrder.mk "5O190127TN364715T"
    [Link.mk "https://api-m.sandbox.paypal.com/v2/checkout/orders/5O190127TN364715T" "self";
     Link.mk "https://www.sandbox.paypal.com/checkoutnow?token=5O190127TN364715T" "approve"].

Definition example_out : Outside :=
  {| clock_ms := 1700000000000;
     clock_iso := "2023-11-14T22:13:20.000000";
     oauth_reply := Reply "A21AAFEpH4PsADK7qSS7pSRsgz";
     checkout_reply := Reply example_session;
     capture_reply := Reply tt;
     telegram_reply := Reply tt;
     disk := Written |}.

Definition example_customer : Customer.t :=
  Customer.mk "Sara" "Ahmadi" "+96890000000" "Muscat, Al Khuwair" None None
              "whatsapp" "delivery".

Definition example_order : Order.t :=
  Order.mk "1699999999000" "2023-11-14T22:13:19.000000" example_customer
           [LineItem.mk "P1" example_name 9.0 2] 18.0 46.800000000000004
           "pending_payment" false "8GB67279RC051624C".

Definition example_store : Document.t :=
  Document.mk [example_P1] [] (Some [example_order]).

Definition example_world : World :=
  {| data_file := FileJson example_store; journal := [] |}.

Definition example_request : OrderRequest.t :=
  OrderRequest.mk example_customer example_cart.

Definition other_customer : Customer.t :=
  Customer.mk "Omar" "Said" "+96891111111" "Seeb" None (Some "no onions")
              "call" "pickup".

Definition other_request : OrderRequest.t :=
  OrderRequest.mk other_customer example_cart.

(** What the example cart is priced. *)
Definition example_priced : Priced.t :=
  Priced.mk 18.0 [LineItem.mk "P1" example_name 9.0 2] 46.800000000000004.

(** A store with the example catalog and no orders yet. *)
Definition fresh_world : World :=
  {| data_file := FileJson (Document.mk [example_P1] [] (Some [])); journal := [] |}.

(** A process started without the gateway credentials. *)
Definition unconfigured_cfg : Config :=
  {| ADMIN_TOKEN := "mamad1390";
     TELEGRAM_BOT_TOKEN := Some "bot-token";
     TELEGRAM_CHAT_ID := Some "chat-id";
     PAYPAL_CLIENT_ID := None;
     PAYPAL_SECRET := None |}.

(** ** Catalog, admin and start-up routes *)

(** The upsert both [save_product] and [save_category] spell out:
    [existing = next((i for i, y in enumerate(l) if y["id"] == x.id), None)],
    then [l[existing] = x] or [l.append(x)]. *)
Definition upsert {A : Type} (key : A → string) (x : A) (l : list A) : list A :=
  match list_find (λ y, key y = key x) l with
  | Some (existing, _) => <[existing := x]> l
  | None => l ++ [x]
  end.

(** [[y for y in l if y["id"] != k]] *)
Definition without {A : Type} (key : A → string) (k : string) (l : list A) : list A :=
  filter (λ y, key y ≠ k) l.

(** [next((y for y in l if y["id"] == k), None)] *)
Definition lookup_by {A : Type} (key : A → string) (k : string) (l : list A) : option A :=
  snd <$> list_find (λ y, key y = k) l.

(** The seeds of [seed_data]. *)
Definition seed_categories : list Category.t :=
  [Category.mk "1" (Translatable.mk "پیش غذا" "Appetizers" "المقبلات");
   Category.mk "2" (Translatable.mk "غذای اصلی" "Main Course" "الطبق الرئيسي")].

Definition seed_products : list Product.t :=
  [Product.mk "1"
     (Translatable.mk "استیک فیله مینیون" "Filet Mignon Steak" "ستيك فيليه مينيون")
     (Translatable.mk "استیک گوساله درجه یک" "Premium beef steak" "ستيك لحم بقري ممتاز")
     15.5 10 "2"
     "https://images.unsplash.com/photo-1600891964092-4316c288032e?w=400"].

Section AdminHandlers.

Variable cfg : Config.
Variable out : Outside.

(** *** DataManager, at start-up *)

Definition seed_data : M unit :=
  data <- load_data ;;
  let categories :=
    match Document.categories data with
    | [] => seed_categories
    | kept => kept
    end in
  let products :=
    match Document.products data with
    | [] => seed_products
    | kept => kept
    end in
  save_data out (Document.mk products categories (Document.orders data)).

(** [os.path.exists] holds of a garbled file as of a document. *)
Definition ensure_data_file : M unit :=
  λ w, match data_file w with
       | FileAbsent =>
           try_except
             (save_data out empty_document ;;; seed_data)
             (λ e, emit (LogError "Error creating data file")) w
       | FileGarbled | FileJson _ => ret tt w
       end.

(** *** Public catalog *)

(** [GET /api/data]: the pair is the object with keys [products] and
    [categories]. *)
Definition get_data : M (list Product.t * list Category.t) :=
  data <- load_data ;;
  ret (Document.products data, Document.categories data).

(** *** Admin routes *)

(** [POST /api/admin/login]; [token] is [payload.get("token")]. *)
Definition admin_login (token : option string) : M Response :=
  if decide (token = Some (ADMIN_TOKEN cfg)) then ret (JsonStatus "success")
  else raise (HTTPException 401 "Invalid Token").

(** [GET /api/admin/full-data] *)
Definition get_admin_data (x_admin_token : option string) : M Document.t :=
  verify_admin cfg x_admin_token ;;;
  load_data.

(** [POST /api/admin/product] *)
Definition save_product (x_admin_token : option string) (product : Product.t)
    : M Response :=
  verify_admin cfg x_admin_token ;;;
  data <- load_data ;;
  save_data out (Document.mk (upsert Product.id product (Document.products data))
                             (Document.categories data) (Document.orders data)) ;;;
  ret (JsonStatus "success").

(** [DELETE /api/admin/product/{pid}] *)
Definition delete_product (x_admin_token : option string) (pid : string)
    : M Response :=
  verify_admin cfg x_admin_token ;;;
  data <- load_data ;;
  save_data out (Document.mk (without Product.id pid (Document.products data))
                             (Document.categories data) (Document.orders data)) ;;;
  ret (JsonStatus "success").

(** [POST /api/admin/category] *)
Definition save_category (x_admin_token : option string) (category : Category.t)
    : M Response :=
  verify_admin cfg x_admin_token ;;;
  data <- load_data ;;
  save_data out (Document.mk (Document.products data)
                             (upsert Category.id category (Document.categories data))
                             (Document.orders data)) ;;;
  ret (JsonStatus "success").

(** [DELETE /api/admin/category/{cid}] *)
Definition delete_category (x_admin_token : option string) (cid : string)
    : M Response :=
  verify_admin cfg x_admin_token ;;;
  data <- load_data ;;
  save_data out (Document.mk (Document.products data)
                             (without Category.id cid (Document.categories data))
                             (Document.orders data)) ;;;
  ret (JsonStatus "success").

(** [POST /api/admin/order-status]; [order_id] is [payload.get("id")].  The
    route is embedded for payloads that carry a [status]: without one the
    code stores [null], which the field of an order record cannot hold. *)
Definition update_order_status (x_admin_token : option string)
    (order_id : option string) (status : string) : M Response :=
  verify_admin cfg x_admin_token ;;;
  data <- load_data ;;
  orders <- get_orders data ;;
  match list_find (λ o, Some (Order.id o) = order_id) orders with
  | Some (i, order) =>
      save_data out (Document.set_orders (<[i := Order.set_status status order]> orders)
                                         data) ;;;
      ret (JsonStatus "success")
  | None => raise (HTTPException 404 "Order not found")
  end.

(** [GET /api/admin/backup]: the file itself is the answer.  An exception
    raised without a detail carries the reason phrase of its status. *)
Definition download_backup (token : string) : M DataFile :=
  if decide (token = ADMIN_TOKEN cfg) then λ w, (Return (data_file w), w)
  else raise (HTTPException 403 "Forbidden").

End AdminHandlers.

(** What [json.loads] makes of a downloaded backup when it is uploaded
    again: the object the file holds, with the keys it has. *)
Definition upload_of_backup (f : DataFile) : Upload :=
  match f with
  | FileJson d =>
      JsonObject (Some (Document.products d)) (Some (Document.categories d))
                 (Document.orders d)
  | FileAbsent | FileGarbled => NotJson
  end.

(** The lines of a cart and of a priced order as pairs of id and quantity. *)
Definition cart_line (item : CartItem.t) : string * Z :=
  (CartItem.id item, CartItem.quantity item).

Definition order_line (line : LineItem.t) : string * Z :=
  (LineItem.id line, LineItem.quantity line).

(** A priced line that names a product of the catalog and carries its
    name and its discounted unit price. *)
Definition line_of_catalog (products : list Product.t) (line : LineItem.t) : Prop :=
  ∃ prod,
    find_product products (LineItem.id line) = Some prod
    ∧ LineItem.name line = Product.name prod
    ∧ final_price prod = Return (LineItem.price line).

(** The documents handed to [save_data] so far, each with what the write
    did, oldest first. *)
Definition writes (w : World) : list Event := List.filter is_write (journal w).

(** [n] slashes. *)
Fixpoint slashes (n : nat) : string :=
  match n with
  | O => EmptyString
  | S n => String "/"%char (slashes n)
  end.

(** The last character of a string, if it has one. *)
Fixpoint last_char (s : string) : option ascii :=
  match s with
  | EmptyString => None
  | String c EmptyString => Some c
  | String _ rest => last_char rest
  end.

(** * Properties *)

(** ** The helpers on concrete inputs *)

Example str_of_int_clock : str_of_int 1700000000000 = "1700000000000".
Proof. reflexivity. Qed.

Example str_of_int_negative : str_of_int (-42) = "-42".
Proof. reflexivity. Qed.

Example rstrip_slash_base_url : rstrip_slash "http://testserver/" = "http://testserver".
Proof. reflexivity. Qed.

Example rstrip_slash_inner : rstrip_slash "a/b//" = "a/b".
Proof. reflexivity. Qed.

Example return_url_example :
  return_url "http://testserver/" "1700000000000"
  = "http://testserver/api/payment/success?oid=1700000000000".
Proof. reflexivity. Qed.

Example empty_string_is_falsy : truthy (Some "") = false ∧ truthy None = false.
Proof. by split. Qed.

Example final_price_P1 : final_price example_P1 = Return 9.0%float.
Proof. reflexivity. Qed.

Example float_of_int_exact : float_of_int 2 = Return 2%float.
Proof. reflexivity. Qed.

Example float_of_int_rounds_to_even :
  float_of_int (2 ^ 53 + 1) = Return 9007199254740992%float
  ∧ float_of_int (2 ^ 53 + 3) = Return 9007199254740996%float.
Proof. by split. Qed.

Example float_of_int_largest :
  float_of_int (2 ^ 1024 - 2 ^ 970 - 1) = Return 1.7976931348623157e+308%float
  ∧ float_of_int (2 ^ 1024 - 2 ^ 970) = Raise OverflowError
  ∧ float_of_int (10 ^ 400) = Raise OverflowError.
Proof. vm_compute. by split_and!. Qed.

Example div_100_rounds_once :
  div_100 10 = Return 0.1%float
  ∧ div_100 (2 ^ 53 + 1) = Return 0x1.47ae147ae147cp+46%float
  ∧ div_100 (-15) = Return (-0.15)%float
  ∧ div_100 (10 ^ 310) = Return 1e308%float
  ∧ div_100 (10 ^ 400) = Raise OverflowError.
Proof. vm_compute. by split_and!. Qed.

Example format_2f_rounds_half_even :
  format_2f <$> [46.800000000000004; 0.125; 0.375; 2.675; 99.995; 0.004999; -0.001; 18]%float
  = ["46.80"; "0.12"; "0.38"; "2.67"; "100.00"; "0.00"; "-0.00"; "18.00"].
Proof. reflexivity. Qed.

Example bearer_none : bearer None = "Bearer None".
Proof. reflexivity. Qed.

(** ** Pricing *)

Lemma price_item_unresolved products acc item :
  ¬ resolvable products item → price_item products acc item = Return acc.
Proof.
  unfold resolvable, price_item. intros Hnone.
  destruct (find_product products (CartItem.id item)) as [prod|] eqn:Hfind;
    [|reflexivity].
  exfalso. apply Hnone. eauto.
Qed.

(** A line that resolves adds its line total to the running total, and
    raises where its line total does. *)
Lemma price_item_resolved products acc item prod :
  find_product products (CartItem.id item) = Some prod →
  match line_total prod item with
  | Return total =>
      ∃ lines, price_item products acc item = Return ((acc.1 + total)%float, lines)
  | Raise e => price_item products acc item = Raise e
  end.
Proof.
  intros Hfind. unfold price_item, line_total, final_price. rewrite Hfind.
  destruct (div_100 (Product.discount prod)) as [ratio|e]; [|reflexivity].
  cbn [and_then].
  destruct (float_of_int (CartItem.quantity item)) as [quantity|e]; [|reflexivity].
  cbn [and_then]. by eexists.
Qed.

(** The running total of the loop is the left-to-right sum of the line
    totals, whatever the total it starts from, and the loop raises where
    the first line total does. *)
Lemma price_loop_total products items prods :
  resolves products items prods →
  ∀ acc, outcome_map fst (price_loop products items acc)
         = outcome_map (λ totals, fold_left PrimFloat.add totals acc.1)
                       (all_values (zip_with line_total prods items)).
Proof.
  induction 1 as [|item prod items prods Hfind _ IH]; intros acc; [reflexivity|].
  cbn [price_loop zip_with all_values].
  pose proof (price_item_resolved products acc item prod Hfind) as Hitem.
  destruct (line_total prod item) as [total|e].
  - destruct Hitem as [lines ->]. cbn [and_then]. rewrite IH. cbn [fst].
    by destruct (all_values (zip_with line_total prods items)).
  - by rewrite Hitem.
Qed.

(** Lines that do not resolve leave the loop state alone. *)
Lemma price_loop_filter products items :
  ∀ acc, price_loop products items acc
         = price_loop products (filter (resolvable products) items) acc.
Proof.
  induction items as [|item items IH]; intros acc; [reflexivity|].
  rewrite filter_cons. destruct (decide (resolvable products item)) as [Hyes|Hno].
  - cbn [price_loop]. destruct (price_item products acc item); [apply IH|reflexivity].
  - cbn [price_loop]. rewrite (price_item_unresolved _ _ _ Hno). apply IH.
Qed.

Lemma price_order_filter products items :
  price_order products items = price_order products (filter (resolvable products) items).
Proof. unfold price_order. by rewrite <- price_loop_filter. Qed.

Lemma price_order_none_resolvable products items :
  Forall (λ item, ¬ resolvable products item) items →
  price_order products items = Return (Priced.mk 0 [] 0).
Proof.
  intros Hnone. rewrite price_order_filter.
  replace (filter (resolvable products) items) with (@nil CartItem.t); [reflexivity|].
  symmetry. induction Hnone as [|item items Hno _ IH]; [reflexivity|].
  rewrite filter_cons. by destruct (decide (resolvable products item)).
Qed.

(** C2, as the code computes it: for every cart whose product ids all
    resolve, the pricing either raises [OverflowError], exactly when the
    first line total that cannot be computed does (a discount whose
    hundredth, or a quantity whose conversion, is beyond binary64), or it
    gives as base total the sum, in cart order and in binary64 arithmetic, of
    [catalog_price * (1 - discount/100) * quantity], and as settlement total
    that base total times the rate 2.6.  For the catalog with [P1] priced
    10.0 at 10% and the cart [{P1: x2}], the unit price is 9.0, the base
    total 18.0, and the settlement total is the binary64 product of 18.0 and
    2.6, which is 46.800000000000004; for the cart [{P1: x10^400}] no total
    is computed. *)
Theorem price_order_totals :
  (∀ products items prods,
     resolves products items prods →
     outcome_map Priced.calculated_total (price_order products items)
     = spec_base_total prods items
     ∧ outcome_map Priced.total_usd (price_order products items)
       = outcome_map (λ total, (total * OMR_TO_USD_RATE)%float)
                     (spec_base_total prods items))
  ∧ OMR_TO_USD_RATE = 2.6%float
  ∧ price_order [example_P1] example_cart
    = Return (Priced.mk 18.0 [LineItem.mk "P1" example_name 9.0 2] 46.800000000000004)
  ∧ price_order [example_P1] [CartItem.mk "P1" (10 ^ 400)] = Raise OverflowError.
Proof.
  split; [|split_and!; [reflexivity|reflexivity|by vm_compute]].
  intros products items prods Hres.
  pose proof (price_loop_total _ _ _ Hres (0%float, [])) as Htotal.
  unfold price_order, spec_base_total, float_sum. cbn [fst] in Htotal.
  destruct (price_loop products items (0%float, [])) as [acc|e],
           (all_values (zip_with line_total prods items)) as [totals|e'];
    cbn in *; simplify_eq; [by rewrite Htotal|done].
Qed.

Lemma price_order_totals_witness :
  resolves [example_P1] example_cart [example_P1]
  ∧ outcome_map Priced.calculated_total (price_order [example_P1] example_cart)
    = spec_base_total [example_P1] example_cart
  ∧ outcome_map Priced.total_usd (price_order [example_P1] example_cart)
    = outcome_map (λ total, (total * OMR_TO_USD_RATE)%float)
                  (spec_base_total [example_P1] example_cart).
Proof.
  assert (Hres : resolves [example_P1] example_cart [example_P1]).
  { repeat constructor. }
  split; [exact Hres|].
  exact (proj1 price_order_totals [example_P1] example_cart [example_P1] Hres).
Defined.

(** C2 as stated fails at its own example: the settlement total the code
    computes for it is not the float 46.8. *)
Lemma example_settlement_is_not_46_8 :
  outcome_map Priced.total_usd (price_order [example_P1] example_cart)
  ≠ Return 46.8%float.
Proof. vm_compute. discriminate. Qed.

(** ** Services *)

(** Unfolds the monad so that a run reduces on the replies of the outside. *)
Ltac unfold_run :=
  unfold bind, ret, raise, try_except, emit, get_orders in *.

Lemma save_data_returns out data w : (save_data out data w).1 = Return tt.
Proof. unfold save_data. by destruct (disk out). Qed.

Lemma save_data_written out data w :
  disk out = Written → data_file (save_data out data w).2 = FileJson data.
Proof. unfold save_data. by intros ->. Qed.

Lemma get_access_token_file cfg out w :
  data_file (get_access_token cfg out w).2 = data_file w.
Proof.
  unfold get_access_token. unfold_run.
  destruct (negb _ || negb _); [reflexivity|]. by destruct (oauth_reply out).
Qed.

Lemma create_payment_file cfg out total r c w :
  data_file (create_payment cfg out total r c w).2 = data_file w.
Proof.
  unfold create_payment. unfold_run.
  pose proof (get_access_token_file cfg out w) as Hfile.
  destruct (get_access_token cfg out w) as [[token|e] w1]; cbn in *; [|done].
  by destruct (checkout_reply out).
Qed.

Lemma capture_payment_file cfg out token w :
  data_file (capture_payment cfg out token w).2 = data_file w.
Proof.
  unfold capture_payment. unfold_run.
  pose proof (get_access_token_file cfg out w) as Hfile.
  destruct (get_access_token cfg out w) as [[tok|e] w1]; cbn in *; [|done].
  by destruct (capture_reply out).
Qed.

(** A capture call posts to the gateway at most once, and writes nothing. *)
Lemma capture_payment_journal cfg out token w :
  ∃ evs, journal (capture_payment cfg out token w).2 = journal w ++ evs
         ∧ length (List.filter is_capture evs) ≤ 1
         ∧ List.filter is_write evs = []
         ∧ List.filter is_notification evs = [].
Proof.
  unfold capture_payment, get_access_token. unfold_run.
  destruct (negb _ || negb _); cbn;
    [|destruct (oauth_reply out); cbn];
    try destruct (capture_reply out); cbn; rewrite <- ?app_assoc;
    (eexists; split; [reflexivity|]); cbn; repeat split; lia.
Qed.

(** Notification never raises and never touches the file, whatever the
    channel does. *)
Lemma send_order_returns cfg out order w :
  (send_order cfg out order w).1 = Return tt
  ∧ data_file (send_order cfg out order w).2 = data_file w.
Proof.
  unfold send_order. unfold_run.
  destruct (negb _ || negb _); [done|]. by destruct (telegram_reply out).
Qed.

Lemma notify_guarded cfg out order w :
  try_except (send_order cfg out order) (λ e, emit (LogError "Telegram Failed")) w
  = send_order cfg out order w.
Proof.
  unfold try_except. pose proof (send_order_returns cfg out order w) as [Hret _].
  by destruct (send_order cfg out order w) as [[[]|e] w'].
Qed.

(** ** Finalization: [payment_success] *)

(** The run of [payment_success] on an order it finds, in terms of the
    three calls it makes. *)
Lemma payment_success_found cfg out w oid token os i o :
  Document.orders (read_document (data_file w)) = Some os →
  list_find (λ o, Order.id o = oid) os = Some (i, o) →
  payment_success cfg out oid token w =
    match capture_payment cfg out token w with
    | (Return _, w1) =>
        let data' := Document.set_orders (<[i := confirmed o]> os)
                                         (read_document (data_file w)) in
        (Return (RedirectResponse ("/success?oid=" +:+ oid)),
         (send_order cfg out (confirmed o) (save_data out data' w1).2).2)
    | (Raise e, w1) =>
        (Return (RedirectResponse "/?error=payment_failed"),
         {| data_file := data_file w1; journal := journal w1 ++ [LogError "Capture Error"] |})
    end.
Proof.
  intros Horders Hfind. unfold payment_success, load_data.
  unfold bind at 1. unfold bind at 1. unfold get_orders. rewrite Horders.
  unfold ret at 1. rewrite Hfind.
  unfold try_except at 1. unfold bind at 1.
  destruct (capture_payment cfg out token w) as [[[]|e] w1]; [|reflexivity].
  unfold bind at 1.
  pose proof (save_data_returns out
    (Document.set_orders (<[i:=Order.set_paid true (Order.set_status "confirmed" o)]> os)
       (read_document (data_file w))) w1) as Hsave.
  fold (confirmed o) in *.
  destruct (save_data out _ w1) as [[[]|e] w2] eqn:Hrun; [|discriminate].
  unfold bind at 1. rewrite notify_guarded. cbn [snd].
  pose proof (send_order_returns cfg out (confirmed o) w2) as [Hret _].
  destruct (send_order cfg out (confirmed o) w2) as [[[]|e] w3]; [|discriminate].
  reflexivity.
Qed.

Lemma list_find_confirmed os oid i o :
  list_find (λ o, Order.id o = oid) os = Some (i, o) →
  list_find (λ o, Order.id o = oid) (<[i := confirmed o]> os) = Some (i, confirmed o).
Proof.
  intros (Hlook & Hid & Hfirst)%list_find_Some. apply list_find_Some.
  split_and!.
  - apply list_lookup_insert_eq. by eapply lookup_lt_Some.
  - exact Hid.
  - intros j y Hj Hlt. rewrite list_lookup_insert_ne in Hj by lia. eauto.
Qed.

(** C8.  Finalizing with an order id that matches no order of the stored
    orders answers the not-found redirect and leaves the whole world as it
    was: the file is not written and no call leaves the process, so no
    capture is attempted. *)
Theorem payment_success_unknown_order cfg out w oid token os :
  Document.orders (read_document (data_file w)) = Some os →
  Forall (λ o, Order.id o ≠ oid) os →
  payment_success cfg out oid token w
  = (Return (RedirectResponse "/?error=order_not_found"), w).
Proof.
  intros Horders Hnone.
  assert (list_find (λ o, Order.id o = oid) os = None) as Hfind
    by (by apply list_find_None).
  unfold payment_success, load_data. unfold_run. rewrite Horders.
  unfold ret. cbv beta iota zeta. by rewrite Hfind.
Qed.

Lemma payment_success_unknown_order_witness :
  payment_success example_cfg example_out "1700000000001" "EC-5O190127TN364715T"
                  example_world
  = (Return (RedirectResponse "/?error=order_not_found"), example_world).
Proof.
  apply (payment_success_unknown_order example_cfg example_out example_world
           "1700000000001" "EC-5O190127TN364715T" [example_order]).
  - reflexivity.
  - repeat constructor. discriminate.
Defined.

(** C3.  When the lookup finds the order and the capture call raises, the
    caller is redirected to the payment-failed page, the file is exactly
    what it was, so the stored order is the one found, pending and unpaid if
    it was; the request posts at most one capture, writes nothing and
    notifies nobody. *)
Theorem payment_success_capture_fails cfg out w oid token os i o e :
  Document.orders (read_document (data_file w)) = Some os →
  list_find (λ o, Order.id o = oid) os = Some (i, o) →
  (capture_payment cfg out token w).1 = Raise e →
  let after := payment_success cfg out oid token w in
  after.1 = Return (RedirectResponse "/?error=payment_failed")
  ∧ data_file after.2 = data_file w
  ∧ (∃ os', Document.orders (read_document (data_file after.2)) = Some os'
            ∧ list_find (λ o, Order.id o = oid) os' = Some (i, o)
            ∧ (Order.status o = "pending_payment" → Order.paid o = false →
               ∀ o', os' !! i = Some o' →
                     Order.status o' = "pending_payment" ∧ Order.paid o' = false))
  ∧ (∃ evs, journal after.2 = journal w ++ evs
            ∧ length (List.filter is_capture evs) ≤ 1
            ∧ List.filter is_write evs = []
            ∧ List.filter is_notification evs = []).
Proof.
  intros Horders Hfind Hraise after. subst after.
  rewrite (payment_success_found _ _ _ _ _ _ _ _ Horders Hfind).
  pose proof (capture_payment_file cfg out token w) as Hfile.
  destruct (capture_payment_journal cfg out token w) as (evs & Hj & Hcap & Hwr & Hno).
  destruct (capture_payment cfg out token w) as [[[]|e'] w1]; [discriminate|].
  cbn in *. split_and!; [done|done| |].
  - rewrite Hfile. exists os. split_and!; [done|done|].
    intros Hst Hpaid o' Ho'. apply list_find_Some in Hfind as (Hlook & _).
    by simplify_eq.
  - exists (evs ++ [LogError "Capture Error"]). rewrite Hj, <- app_assoc.
    rewrite !List.filter_app. cbn. rewrite Hwr, Hno, length_app. cbn.
    split_and!; [done|lia|done|done].
Qed.

Lemma payment_success_capture_fails_witness :
  let out := with_capture (Fault HTTPError) example_out in
  let after := payment_success example_cfg out "1699999999000" "EC-8GB67279RC051624C"
                               example_world in
  after.1 = Return (RedirectResponse "/?error=payment_failed")
  ∧ data_file after.2 = data_file example_world.
Proof.
  intros out after.
  destruct (payment_success_capture_fails example_cfg out example_world
              "1699999999000" "EC-8GB67279RC051624C" [example_order] 0 example_order
              HTTPError eq_refl eq_refl eq_refl) as (Hresp & Hfile & _).
  split; [exact Hresp|exact Hfile].
Defined.




(** The capture call does not look at the notification channel. *)
Lemma capture_payment_channel cfg out bot chat reply token w :
  capture_payment (with_channel bot chat cfg) (with_delivery reply out) token w
  = capture_payment cfg out token w.
Proof. reflexivity. Qed.

Lemma save_data_delivery out reply data w :
  save_data (with_delivery reply out) data w = save_data out data w.
Proof. reflexivity. Qed.

(** C9.  The response of [payment_success] and the file it leaves do not
    depend on the notification channel: unconfigured, failing or delivering,
    the finalize answers the same and stores the same.  In particular, when
    the order is found, the capture returns and the write goes through, the
    file holds the order confirmed and paid and the caller is redirected to
    the success page, whatever the channel does. *)
Theorem notification_never_changes_finalize :
  (∀ cfg out w oid token bot chat reply,
     let after := payment_success cfg out oid token w in
     let after' := payment_success (with_channel bot chat cfg)
                                   (with_delivery reply out) oid token w in
     after'.1 = after.1 ∧ data_file after'.2 = data_file after.2)
  ∧ (∀ cfg out w oid token os i o bot chat reply,
       Document.orders (read_document (data_file w)) = Some os →
       list_find (λ o, Order.id o = oid) os = Some (i, o) →
       (capture_payment cfg out token w).1 = Return tt →
       disk out = Written →
       let after' := payment_success (with_channel bot chat cfg)
                                     (with_delivery reply out) oid token w in
       after'.1 = Return (RedirectResponse ("/success?oid=" +:+ oid))
       ∧ data_file after'.2
         = FileJson (Document.set_orders (<[i := confirmed o]> os)
                                         (read_document (data_file w)))
       ∧ Order.status (confirmed o) = "confirmed"
       ∧ Order.paid (confirmed o) = true).
Proof.
  split.
  - intros cfg out w oid token bot chat reply after after'. subst after after'.
    destruct (Document.orders (read_document (data_file w))) as [os|] eqn:Horders.
    + destruct (list_find (λ o, Order.id o = oid) os) as [[i o]|] eqn:Hfind.
      * rewrite !(payment_success_found _ _ _ _ _ _ _ _ Horders Hfind).
        rewrite capture_payment_channel.
        destruct (capture_payment cfg out token w) as [[[]|e] w1]; [|done].
        cbn [fst snd]. split; [done|].
        by rewrite !(proj2 (send_order_returns _ _ _ _)).
      * unfold payment_success, load_data. unfold_run. rewrite Horders.
        unfold ret. cbv beta iota zeta. by rewrite Hfind.
    + unfold payment_success, load_data. unfold_run. by rewrite Horders.
  - intros cfg out w oid token os i o bot chat reply Horders Hfind Hcap Hdisk after'.
    subst after'.
    rewrite (payment_success_found _ _ _ _ _ _ _ _ Horders Hfind).
    rewrite capture_payment_channel.
    destruct (capture_payment cfg out token w) as [[[]|e] w1]; [|discriminate].
    cbn [fst snd]. split_and!; try reflexivity.
    rewrite (proj2 (send_order_returns _ _ _ _)). by apply save_data_written.
Qed.

Lemma notification_never_changes_finalize_witness :
  let after' := payment_success (with_channel None None example_cfg)
                                (with_delivery (Fault HTTPError) example_out)
                                "1699999999000" "EC-8GB67279RC051624C" example_world in
  after'.1 = Return (RedirectResponse "/success?oid=1699999999000")
  ∧ data_file after'.2
    = FileJson (Document.mk [example_P1] [] (Some [confirmed example_order])).
Proof.
  intros after'.
  destruct (proj2 notification_never_changes_finalize example_cfg example_out
              example_world "1699999999000" "EC-8GB67279RC051624C" [example_order] 0
              example_order None None (Fault HTTPError) eq_refl eq_refl eq_refl eq_refl)
    as (Hresp & Hfile & _).
  split; [exact Hresp|exact Hfile].
Defined.

(** ** Creation: [create_order] *)

(** The run of [create_order] in terms of the pricing of its cart and of
    the gateway call it makes. *)
Lemma create_order_run cfg out base_url order_req w :
  create_order cfg out base_url order_req w =
    let data := read_document (data_file w) in
    match price_order (Document.products data) (OrderRequest.items order_req) with
    | Raise e => (Raise e, w)
    | Return priced =>
        match session_of_request cfg out base_url order_req w with
        | (Return paypal_order, w1) =>
            match list_find (λ link, Link.rel link = "approve")
                            (PayPalOrder.links paypal_order),
                  Document.orders data with
            | Some (_, link), Some os =>
                (Return (JsonApproval (Link.href link)),
                 (save_data out
                    (Document.set_orders
                       (os ++ [order_of_request out order_req priced paypal_order]) data)
                    w1).2)
            | _, _ => (Raise (HTTPException 500 "Payment creation failed"),
                       creation_failed w1)
            end
        | (Raise e, w1) => (Raise (HTTPException 500 "Payment creation failed"),
                            creation_failed w1)
        end
    end.
Proof.
  unfold create_order, session_of_request, load_data, order_of_request.
  unfold bind at 1. unfold bind at 1. unfold lift. cbv zeta.
  destruct (price_order (Document.products (read_document (data_file w)))
                        (OrderRequest.items order_req)) as [priced|e]; [|reflexivity].
  unfold try_except at 1. unfold bind at 1.
  destruct (create_payment cfg out _ _ _ w) as [[po|e] w1]; [|reflexivity].
  unfold bind at 1. unfold approve_href.
  destruct (list_find _ (PayPalOrder.links po)) as [[k link]|]; [|reflexivity].
  unfold ret at 1. unfold bind at 1. unfold get_orders.
  destruct (Document.orders (read_document (data_file w))) as [os|]; [|reflexivity].
  unfold ret at 1. unfold bind at 1.
  pose proof (save_data_returns out
    (Document.set_orders
       (os ++ [new_order out (str_of_int (clock_ms out)) order_req
                 (Priced.full_items priced) (Priced.calculated_total priced)
                 (Priced.total_usd priced) po])
       (read_document (data_file w))) w1) as Hsave.
  destruct (save_data out _ w1) as [[[]|e] w2]; [reflexivity|discriminate].
Qed.

(** The gateway call leaves the file alone, and it is made only for a
    cart that prices. *)
Lemma session_of_request_file cfg out base_url order_req w :
  data_file (session_of_request cfg out base_url order_req w).2 = data_file w.
Proof.
  unfold session_of_request. destruct (price_order _ _); [|reflexivity].
  apply create_payment_file.
Qed.

Lemma session_of_request_priced cfg out base_url order_req w paypal_order :
  (session_of_request cfg out base_url order_req w).1 = Return paypal_order →
  ∃ priced,
    price_order (Document.products (read_document (data_file w)))
                (OrderRequest.items order_req) = Return priced.
Proof.
  unfold session_of_request. destruct (price_order _ _) as [priced|e]; [eauto|].
  discriminate.
Qed.

Lemma append_is_longer {A} (l : list A) (x : A) : l ≠ l ++ [x].
Proof.
  intros Heq. apply (f_equal length) in Heq. rewrite length_app in Heq. cbn in Heq. lia.
Qed.

(** A file that is what [load_data] read does not hold an appended order. *)
Lemma unchanged_file_not_appended f : ¬ order_appended (read_document f) f.
Proof.
  intros (os & o & Horders & Hfile & _). destruct f as [| |d]; try discriminate.
  cbn in *. injection Hfile as Hd. rewrite Hd in Horders. cbn in Horders.
  injection Horders as Hos. symmetry in Hos. by apply append_is_longer in Hos.
Qed.

Lemma garbled_file_not_appended data : ¬ order_appended data FileGarbled.
Proof. by intros (os & o & _ & Hfile & _). Qed.

(** C1, as the code does it.  A pending, unpaid order is appended to the
    stored document if and only if the cart was priced and the gateway
    session created, the gateway's answer carries an approve link, the
    loaded document has an orders collection, and the write of the file goes
    through.  When the session creation fails, the file is left as it was
    and the caller gets the generic error 500 "Payment creation failed".
    When the cart cannot be priced, the exception of the pricing leaves the
    handler before the gateway is called: nothing is posted, written or
    logged. *)
Theorem create_order_persists_iff cfg out w base_url order_req :
  let data := read_document (data_file w) in
  let pricing := price_order (Document.products data) (OrderRequest.items order_req) in
  let session := (session_of_request cfg out base_url order_req w).1 in
  let after := create_order cfg out base_url order_req w in
  (order_appended data (data_file after.2) ↔
     ∃ paypal_order,
       session = Return paypal_order
       ∧ is_Some (list_find (λ link, Link.rel link = "approve")
                            (PayPalOrder.links paypal_order))
       ∧ is_Some (Document.orders data)
       ∧ disk out = Written)
  ∧ (∀ priced e, pricing = Return priced → session = Raise e →
          data_file after.2 = data_file w
          ∧ after.1 = Raise (HTTPException 500 "Payment creation failed"))
  ∧ (∀ e, pricing = Raise e → after = (Raise e, w)).
Proof.
  intros data pricing session after. subst data pricing session after.
  rewrite create_order_run. cbv zeta.
  pose proof (session_of_request_file cfg out base_url order_req w) as Hfile.
  destruct (price_order (Document.products (read_document (data_file w)))
                        (OrderRequest.items order_req)) as [priced|e0] eqn:Hpriced.
  - split; [|split; [|intros e; discriminate]].
    + destruct (session_of_request cfg out base_url order_req w) as [[po|e] w1];
        cbn [fst snd] in *.
      * destruct (list_find _ (PayPalOrder.links po)) as [[k link]|] eqn:Hlink.
        -- destruct (Document.orders (read_document (data_file w))) as [os|] eqn:Horders.
           ++ unfold save_data. destruct (disk out) eqn:Hdisk; cbn [snd data_file].
              ** split; [intros _; exists po; eauto 10|].
                 intros _. exists os, (order_of_request out order_req priced po).
                 by split_and!.
              ** rewrite Hfile. split.
                 --- by intros ?%unchanged_file_not_appended.
                 --- intros (? & _ & _ & _ & ?). discriminate.
              ** split.
                 --- by intros ?%garbled_file_not_appended.
                 --- intros (? & _ & _ & _ & ?). discriminate.
           ++ cbn [snd creation_failed data_file]. rewrite Hfile. split.
              ** by intros ?%unchanged_file_not_appended.
              ** intros (? & _ & _ & [? ?] & _). discriminate.
        -- cbn [snd creation_failed data_file]. rewrite Hfile. split.
           ++ by intros ?%unchanged_file_not_appended.
           ++ intros (po' & [= <-] & [? Hsome] & _). rewrite Hlink in Hsome.
              discriminate.
      * cbn [snd creation_failed data_file]. rewrite Hfile. split.
        -- by intros ?%unchanged_file_not_appended.
        -- intros (? & ? & _). discriminate.
    + intros priced' e _ Hsession.
      destruct (session_of_request cfg out base_url order_req w) as [[po|e'] w1];
        cbn [fst snd] in *; [discriminate|].
      by cbn [snd creation_failed data_file].
  - split; [|split; [intros priced e; discriminate|by intros e [= <-]]].
    cbn [snd]. split.
    + by intros ?%unchanged_file_not_appended.
    + intros (po & Hsession & _). unfold session_of_request in Hsession.
      rewrite Hpriced in Hsession. discriminate.
Qed.

Lemma create_order_persists_iff_witness :
  let out := with_checkout (Fault HTTPError) example_out in
  let after := create_order example_cfg out "http://testserver/" example_request
                            example_world in
  data_file after.2 = data_file example_world
  ∧ after.1 = Raise (HTTPException 500 "Payment creation failed").
Proof.
  intros out after.
  exact (proj1 (proj2 (create_order_persists_iff example_cfg out example_world
                         "http://testserver/" example_request))
           example_priced HTTPError eq_refl eq_refl).
Defined.

(** C1 as stated fails: the session is created and yet no order is stored,
    once because the file cannot be opened for writing (the caller is still
    handed the approval link), once because the gateway's answer has no
    approve link. *)
Lemma session_created_but_no_order_stored :
  (let out := with_disk OpenRefused example_out in
   let after := create_order example_cfg out "http://testserver/" example_request
                             example_world in
   (session_of_request example_cfg out "http://testserver/" example_request
                       example_world).1 = Return example_session
   ∧ after.1 = Return (JsonApproval
                 "https://www.sandbox.paypal.com/checkoutnow?token=5O190127TN364715T")
   ∧ data_file after.2 = data_file example_world
   ∧ ¬ order_appended example_store (data_file after.2))
  ∧ (let bare := PayPalOrder.mk "5O190127TN364715T" [] in
     let out := with_checkout (Reply bare) example_out in
     let after := create_order example_cfg out "http://testserver/" example_request
                               example_world in
     (session_of_request example_cfg out "http://testserver/" example_request
                         example_world).1 = Return bare
     ∧ after.1 = Raise (HTTPException 500 "Payment creation failed")
     ∧ ¬ order_appended example_store (data_file after.2)).
Proof.
  split; cbv zeta; split_and!; try reflexivity;
    apply (unchanged_file_not_appended (FileJson example_store)).
Qed.

(** The request reaches the run through its customer and its priced cart. *)
Lemma create_order_congr cfg out base_url req1 req2 w :
  OrderRequest.customer req1 = OrderRequest.customer req2 →
  price_order (Document.products (read_document (data_file w))) (OrderRequest.items req1)
  = price_order (Document.products (read_document (data_file w))) (OrderRequest.items req2) →
  create_order cfg out base_url req1 w = create_order cfg out base_url req2 w.
Proof.
  intros Hcustomer Hpriced. rewrite !create_order_run.
  unfold session_of_request, order_of_request, new_order.
  by rewrite Hcustomer, Hpriced.
Qed.

(** The response and the stored order of a creation that goes through. *)
Lemma create_order_stored cfg out w base_url order_req priced paypal_order k link os :
  price_order (Document.products (read_document (data_file w)))
              (OrderRequest.items order_req) = Return priced →
  Document.orders (read_document (data_file w)) = Some os →
  (session_of_request cfg out base_url order_req w).1 = Return paypal_order →
  list_find (λ link, Link.rel link = "approve") (PayPalOrder.links paypal_order)
  = Some (k, link) →
  disk out = Written →
  (create_order cfg out base_url order_req w).1 = Return (JsonApproval (Link.href link))
  ∧ data_file (create_order cfg out base_url order_req w).2
    = FileJson (Document.set_orders
                  (os ++ [order_of_request out order_req priced paypal_order])
                  (read_document (data_file w))).
Proof.
  intros Hpriced Horders Hsession Hlink Hdisk. rewrite create_order_run. cbv zeta.
  rewrite Hpriced.
  destruct (session_of_request cfg out base_url order_req w) as [[po|e] w1];
    cbn [fst] in Hsession; [|discriminate].
  injection Hsession as ->. rewrite Hlink, Horders. cbn [fst snd].
  split; [done|]. by apply save_data_written.
Qed.

(** C7.  Cart lines whose product id does not resolve are dropped without
    an error: pricing a cart is pricing its resolvable lines, and the whole
    creation request runs as it does on that sub-cart.  A cart none of whose
    lines resolves is not rejected: with a session opened and the write
    going through, the caller gets the approval link and the stored order
    has no items and zero totals. *)
Theorem unresolved_items_are_dropped :
  (∀ products items,
     price_order products items
     = price_order products (filter (resolvable products) items))
  ∧ (∀ cfg out w base_url order_req,
       let products := Document.products (read_document (data_file w)) in
       let kept := filter (resolvable products) (OrderRequest.items order_req) in
       create_order cfg out base_url order_req w
       = create_order cfg out base_url
           (OrderRequest.mk (OrderRequest.customer order_req) kept) w)
  ∧ (∀ cfg out w base_url order_req paypal_order k link os,
       let data := read_document (data_file w) in
       Forall (λ item, ¬ resolvable (Document.products data) item)
              (OrderRequest.items order_req) →
       (session_of_request cfg out base_url order_req w).1 = Return paypal_order →
       list_find (λ link, Link.rel link = "approve") (PayPalOrder.links paypal_order)
       = Some (k, link) →
       Document.orders data = Some os →
       disk out = Written →
       let after := create_order cfg out base_url order_req w in
       after.1 = Return (JsonApproval (Link.href link))
       ∧ data_file after.2
         = FileJson (Document.set_orders
                       (os ++ [new_order out (str_of_int (clock_ms out)) order_req
                                         [] 0 0 paypal_order]) data)).
Proof.
  split_and!.
  - apply price_order_filter.
  - intros cfg out w base_url order_req products kept. subst products kept.
    apply create_order_congr; [reflexivity|]. apply price_order_filter.
  - intros cfg out w base_url order_req po k link os data Hnone Hsession Hlink
      Horders Hdisk after. subst data after.
    exact (create_order_stored cfg out w base_url order_req (Priced.mk 0 [] 0) po k link
             os (price_order_none_resolvable _ _ Hnone) Horders Hsession Hlink Hdisk).
Qed.

Lemma unresolved_items_are_dropped_witness :
  let order_req := OrderRequest.mk example_customer [CartItem.mk "no-such-product" 3] in
  let after := create_order example_cfg example_out "http://testserver/" order_req
                            example_world in
  after.1 = Return (JsonApproval
              "https://www.sandbox.paypal.com/checkoutnow?token=5O190127TN364715T")
  ∧ data_file after.2
    = FileJson (Document.set_orders
                  ([example_order]
                   ++ [new_order example_out "1700000000000" order_req [] 0 0
                                 example_session]) example_store).
Proof.
  intros order_req after.
  refine (proj2 (proj2 unresolved_items_are_dropped) example_cfg example_out
            example_world "http://testserver/" order_req example_session 1
            (Link.mk "https://www.sandbox.paypal.com/checkoutnow?token=5O190127TN364715T"
                     "approve")
            [example_order] _ eq_refl eq_refl eq_refl eq_refl).
  repeat constructor. intros [prod Hfound]. vm_compute in Hfound. discriminate.
Defined.

(** ** Order ids *)

Lemma to_int_printable z : Z.to_int z ≠ Decimal.Pos Decimal.Nil
                           ∧ Z.to_int z ≠ Decimal.Neg Decimal.Nil.
Proof.
  destruct z as [|p|p]; cbn; split; try discriminate; intros [= Hnil];
    by apply DecimalPos.Unsigned.to_uint_nonnil in Hnil.
Qed.

Lemma str_of_int_inj z1 z2 : str_of_int z1 = str_of_int z2 → z1 = z2.
Proof.
  unfold str_of_int. intros Heq. apply (f_equal NilZero.int_of_string) in Heq.
  destruct (to_int_printable z1), (to_int_printable z2).
  rewrite !NilZero.isi in Heq by done. injection Heq as Heq.
  by apply DecimalZ.to_int_inj.
Qed.

Lemma distinct_ids_identify (os : list Order.t) o1 o2 :
  NoDup (order_ids os) → o1 ∈ os → o2 ∈ os → Order.id o1 = Order.id o2 → o1 = o2.
Proof.
  unfold order_ids. induction os as [|o os IH]; intros Hnodup H1 H2 Hid.
  - by apply elem_of_nil in H1.
  - rewrite fmap_cons in Hnodup. apply NoDup_cons in Hnodup as [Hfresh Hnodup].
    apply elem_of_cons in H1 as [->|H1], H2 as [->|H2]; [done| | |by apply IH].
    + exfalso. apply Hfresh. rewrite Hid. by apply list_elem_of_fmap_2.
    + exfalso. apply Hfresh. rewrite <- Hid. by apply list_elem_of_fmap_2.
Qed.

(** C10, as the code has it.  An order id is the decimal writing of the
    clock reading in milliseconds, so two different readings give two
    different ids; a creation keeps the stored ids pairwise distinct
    whenever the id it generates is not yet the id of a stored order; and
    among pairwise distinct ids the lookup by id answers with the very order
    asked for. *)
Theorem order_ids_stay_distinct :
  (∀ t1 t2, t1 ≠ t2 → str_of_int t1 ≠ str_of_int t2)
  ∧ (∀ cfg out w base_url order_req os,
       Document.orders (read_document (data_file w)) = Some os →
       NoDup (order_ids os) →
       str_of_int (clock_ms out) ∉ order_ids os →
       let after := create_order cfg out base_url order_req w in
       ∀ os', Document.orders (read_document (data_file after.2)) = Some os' →
              NoDup (order_ids os'))
  ∧ (∀ w os o,
       Document.orders (read_document (data_file w)) = Some os →
       NoDup (order_ids os) →
       o ∈ os →
       get_order_detail (Order.id o) w = (Return (JsonOrder o), w)).
Proof.
  split_and!.
  - intros t1 t2 Hne Heq. by apply Hne, str_of_int_inj.
  - intros cfg out w base_url order_req os Horders Hnodup Hfresh after os'.
    subst after. rewrite create_order_run. cbv zeta.
    pose proof (session_of_request_file cfg out base_url order_req w) as Hfile.
    rewrite Horders.
    destruct (price_order _ _) as [priced|e0];
      [|cbn [snd]; rewrite Horders; by intros [= <-]].
    destruct (session_of_request cfg out base_url order_req w) as [[po|e] w1];
      cbn [fst snd] in *.
    + destruct (list_find _ (PayPalOrder.links po)) as [[k link]|].
      * unfold save_data. destruct (disk out); cbn [snd data_file read_document].
        -- cbn. intros [= <-]. unfold order_ids. rewrite fmap_app.
           apply NoDup_app. split_and!; [done| |apply NoDup_singleton].
           intros id Hin ->%list_elem_of_singleton. by apply Hfresh.
        -- rewrite Hfile, Horders. by intros [= <-].
        -- cbn. intros [= <-]. apply NoDup_nil_2.
      * cbn [snd creation_failed data_file]. rewrite Hfile, Horders. by intros [= <-].
    + cbn [snd creation_failed data_file]. rewrite Hfile, Horders. by intros [= <-].
  - intros w os o Horders Hnodup Hin.
    unfold get_order_detail, load_data. unfold_run. rewrite Horders.
    unfold ret. cbv beta iota zeta.
    destruct (list_find_elem_of (λ o', Order.id o' = Order.id o) os o Hin eq_refl)
      as [[i o'] Hfind].
    rewrite Hfind. apply list_find_Some in Hfind as (Hlook%list_elem_of_lookup_2 & Hid & _).
    by rewrite (distinct_ids_identify os o' o Hnodup Hlook Hin Hid).
Qed.

Lemma order_ids_stay_distinct_witness :
  let after := create_order example_cfg example_out "http://testserver/" example_request
                            example_world in
  let stored := [example_order;
                 order_of_request example_out example_request example_priced
                                  example_session] in
  Document.orders (read_document (data_file after.2)) = Some stored
  ∧ NoDup (order_ids stored).
Proof.
  intros after stored. split; [reflexivity|].
  refine (proj1 (proj2 order_ids_stay_distinct) example_cfg example_out example_world
            "http://testserver/" example_request [example_order] eq_refl _ _
            stored eq_refl).
  - apply NoDup_singleton.
  - intros Hin%list_elem_of_singleton. vm_compute in Hin. discriminate.
Defined.

(** C10 as stated fails: two creations whose clock reads the same
    millisecond store two different orders under one id, and the lookup by
    that id only ever answers with the first. *)
Lemma same_millisecond_same_id :
  let w1 := (create_order example_cfg example_out "http://testserver/" example_request
                          fresh_world).2 in
  let w2 := (create_order example_cfg example_out "http://testserver/" other_request
                          w1).2 in
  ∃ o1 o2,
    Document.orders (read_document (data_file w2)) = Some [o1; o2]
    ∧ o1 ≠ o2
    ∧ Order.id o1 = Order.id o2
    ∧ (get_order_detail (Order.id o2) w2).1 = Return (JsonOrder o1).
Proof.
  cbv zeta. eexists _, _. split; [vm_compute; reflexivity|].
  split_and!; [|reflexivity|reflexivity]. intros [=].
Qed.

(** ** Gateway credentials *)

(** The sibling path: when the provider rejects the credentials, the
    exception leaves [get_access_token] and both callers. *)
Lemma rejected_credentials_propagate cfg out w e :
  truthy (PAYPAL_CLIENT_ID cfg) = true →
  truthy (PAYPAL_SECRET cfg) = true →
  oauth_reply out = Fault e →
  (get_access_token cfg out w).1 = Raise e
  ∧ (∀ total r c, (create_payment cfg out total r c w).1 = Raise e)
  ∧ (∀ order_id, (capture_payment cfg out order_id w).1 = Raise e).
Proof.
  intros Hid Hsecret Hreply.
  unfold create_payment, capture_payment, get_access_token. unfold_run.
  by rewrite Hid, Hsecret, Hreply.
Qed.

(** C6, where the code departs from it.  With the client id or the secret
    unset, [get_access_token] logs and returns [None]: nothing is raised.
    [create_payment] and [capture_payment] go on with that value and post
    their request under the header [Bearer None]; what they return is then
    whatever the provider answers to it. *)
Theorem missing_credentials_are_not_raised cfg out w :
  truthy (PAYPAL_CLIENT_ID cfg) = false ∨ truthy (PAYPAL_SECRET cfg) = false →
  let logged := {| data_file := data_file w;
                   journal := journal w ++ [LogError "PayPal credentials missing"] |} in
  get_access_token cfg out w = (Return None, logged)
  ∧ (∀ total r c,
       create_payment cfg out total r c w
       = (match checkout_reply out with Reply body => Return body | Fault e => Raise e end,
          {| data_file := data_file w;
             journal := journal logged
                        ++ [HttpCheckout "Bearer None" (format_2f total) r c] |}))
  ∧ (∀ order_id,
       capture_payment cfg out order_id w
       = (match capture_reply out with Reply body => Return body | Fault e => Raise e end,
          {| data_file := data_file w;
             journal := journal logged ++ [HttpCapture "Bearer None" order_id] |})).
Proof.
  intros Hmissing logged. subst logged.
  assert (negb (truthy (PAYPAL_CLIENT_ID cfg)) || negb (truthy (PAYPAL_SECRET cfg)) = true)
    as Hguard.
  { destruct Hmissing as [-> | ->]; [reflexivity|apply orb_true_r]. }
  unfold create_payment, capture_payment, get_access_token. unfold_run.
  rewrite Hguard. cbn. split_and!; [reflexivity| |].
  - intros total r c. by destruct (checkout_reply out).
  - intros order_id. by destruct (capture_reply out).
Qed.

Lemma missing_credentials_are_not_raised_witness :
  get_access_token unconfigured_cfg example_out fresh_world
  = (Return None,
     {| data_file := data_file fresh_world;
        journal := [LogError "PayPal credentials missing"] |})
  ∧ (create_order unconfigured_cfg example_out "http://testserver/" example_request
                  fresh_world).1
    = Return (JsonApproval
                "https://www.sandbox.paypal.com/checkoutnow?token=5O190127TN364715T").
Proof.
  split; [|reflexivity].
  exact (proj1 (missing_credentials_are_not_raised unconfigured_cfg example_out
                  fresh_world (or_introl eq_refl))).
Defined.

(** ** Restore *)

(** The sibling path: an upload that is not JSON, or lacks [products] or
    [categories], is answered 400 and the world is left as it was. *)
Lemma restore_rejects_incomplete cfg out w content :
  match content with
  | NotJson | JsonObject None _ _ | JsonObject _ None _ => True
  | JsonObject (Some _) (Some _) _ => False
  end →
  restore_backup cfg out (Some (ADMIN_TOKEN cfg)) content w
  = (Raise (HTTPException 400 "Invalid backup file"), w).
Proof.
  intros Hbad. unfold restore_backup, verify_admin. unfold_run.
  rewrite decide_True by done.
  by destruct content as [|[ps|] [cs|] os].
Qed.

(** C5, where the code departs from it.  An upload with [products] and
    [categories] and without [orders] passes the test of [restore_backup]:
    it is answered with success and, the write going through, it replaces
    the stored document, orders included. *)
Theorem restore_accepts_backup_without_orders cfg out w products categories :
  disk out = Written →
  restore_backup cfg out (Some (ADMIN_TOKEN cfg))
                 (JsonObject (Some products) (Some categories) None) w
  = (Return (JsonStatus "success"),
     {| data_file := FileJson (Document.mk products categories None);
        journal := journal w
                   ++ [FileWrite (Document.mk products categories None) Written] |}).
Proof.
  intros Hdisk. unfold restore_backup, verify_admin, save_data. unfold_run.
  rewrite decide_True by done. by rewrite Hdisk.
Qed.

Lemma restore_accepts_backup_without_orders_witness :
  let after := restore_backup example_cfg example_out (Some (ADMIN_TOKEN example_cfg))
                              (JsonObject (Some []) (Some []) None) example_world in
  after.1 = Return (JsonStatus "success")
  ∧ data_file after.2 = FileJson (Document.mk [] [] None)
  ∧ data_file example_world = FileJson example_store
  ∧ (payment_success example_cfg example_out "1699999999000" "EC-8GB67279RC051624C"
                     after.2).1 = Raise (KeyError "orders").
Proof.
  intros after. subst after.
  rewrite (restore_accepts_backup_without_orders example_cfg example_out example_world
             [] [] eq_refl).
  repeat split.
Defined.

(** ** Keyed lists: upsert, removal and lookup *)

Section Keyed.

Context {A : Type} (key : A → string).

Lemma upsert_keys (x : A) (l : list A) :
  key <$> upsert key x l
  = if decide (key x ∈ key <$> l) then key <$> l else (key <$> l) ++ [key x].
Proof.
  unfold upsert.
  destruct (list_find (λ y, key y = key x) l) as [[i y]|] eqn:Hfind.
  - apply list_find_Some in Hfind as (Hlook & Hkey & _).
    rewrite decide_True.
    + rewrite list_fmap_insert, <- Hkey. apply list_insert_id.
      by rewrite list_lookup_fmap, Hlook.
    + rewrite <- Hkey. apply list_elem_of_fmap_2. by eapply list_elem_of_lookup_2.
  - rewrite decide_False; [by rewrite fmap_app|].
    pose proof (proj1 (list_find_None _ _) Hfind) as Hnone.
    rewrite Forall_forall in Hnone.
    intros (y & Hkey & Hin)%list_elem_of_fmap. by apply (Hnone y Hin).
Qed.

Lemma upsert_lookup (x : A) (l : list A) :
  lookup_by key (key x) (upsert key x l) = Some x.
Proof.
  unfold lookup_by, upsert.
  destruct (list_find (λ y, key y = key x) l) as [[i y]|] eqn:Hfind.
  - apply list_find_Some in Hfind as (Hlook & Hkey & Hfirst).
    assert (list_find (λ y, key y = key x) (<[i := x]> l) = Some (i, x)) as ->; [|done].
    apply list_find_Some. split_and!; [|done|].
    + apply list_lookup_insert_eq. by eapply lookup_lt_Some.
    + intros j z Hj Hlt. rewrite list_lookup_insert_ne in Hj by lia. eauto.
  - assert (list_find (λ y, key y = key x) (l ++ [x]) = Some (length l, x)) as ->;
      [|done].
    apply list_find_app_Some. right. split_and!; [lia|done|].
    rewrite Nat.sub_diag. cbn. by rewrite decide_True.
Qed.

Lemma list_find_insert_other (P : A → Prop) `{!∀ y, Decision (P y)} l i x y :
  l !! i = Some y → ¬ P y → ¬ P x → list_find P (<[i := x]> l) = list_find P l.
Proof.
  intros Hlook Hy Hx. revert i Hlook.
  induction l as [|z l IH]; intros [|i] Hlook; simplify_eq/=.
  - by rewrite !decide_False.
  - destruct (decide (P z)); [done|]. by rewrite (IH i Hlook).
Qed.

Lemma list_find_snoc_other (P : A → Prop) `{!∀ y, Decision (P y)} l x :
  ¬ P x → list_find P (l ++ [x]) = list_find P l.
Proof.
  intros Hx. induction l as [|z l IH]; cbn.
  - by rewrite decide_False.
  - destruct (decide (P z)); [done|]. by rewrite IH.
Qed.

Lemma upsert_lookup_other (x : A) (l : list A) (k : string) :
  k ≠ key x → lookup_by key k (upsert key x l) = lookup_by key k l.
Proof.
  intros Hne. unfold lookup_by, upsert. f_equal.
  destruct (list_find (λ y, key y = key x) l) as [[i y]|] eqn:Hfind.
  - apply list_find_Some in Hfind as (Hlook & Hkey & _).
    apply (list_find_insert_other _ _ _ _ _ Hlook); congruence.
  - apply list_find_snoc_other. congruence.
Qed.

Lemma without_lookup (k : string) (l : list A) :
  lookup_by key k (without key k l) = None.
Proof.
  unfold lookup_by, without.
  assert (list_find (λ y, key y = k) (filter (λ y, key y ≠ k) l) = None) as ->; [|done].
  apply list_find_None, Forall_forall. by intros y [Hne _]%list_elem_of_filter.
Qed.

Lemma without_lookup_other (k k' : string) (l : list A) :
  k' ≠ k → lookup_by key k' (without key k l) = lookup_by key k' l.
Proof.
  intros Hne. unfold lookup_by, without.
  induction l as [|z l IH]; [done|].
  rewrite filter_cons. destruct (decide (key z ≠ k)) as [Hkeep|Hdrop]; cbn.
  - destruct (decide (key z = k')); [done|].
    destruct (list_find _ (filter _ l)) as [[i y]|], (list_find _ l) as [[j y']|];
      cbn in *; congruence.
  - rewrite decide_False by (apply dec_stable in Hdrop; congruence).
    destruct (list_find _ (filter _ l)) as [[i y]|], (list_find _ l) as [[j y']|];
      cbn in *; congruence.
Qed.

Lemma without_absent (k : string) (l : list A) :
  k ∉ key <$> l → without key k l = l.
Proof.
  intros Habsent. unfold without. induction l as [|z l IH]; [done|].
  rewrite fmap_cons, not_elem_of_cons in Habsent. destruct Habsent as [Hz Hl].
  rewrite filter_cons, decide_True by congruence. by rewrite IH.
Qed.

End Keyed.

(** ** Catalog administration *)

Lemma verify_admin_accepts cfg w :
  verify_admin cfg (Some (ADMIN_TOKEN cfg)) w = (Return true, w).
Proof. unfold verify_admin. by rewrite decide_True. Qed.

Lemma verify_admin_refuses cfg token w :
  token ≠ Some (ADMIN_TOKEN cfg) →
  verify_admin cfg token w = (Raise (HTTPException 403 "Invalid Admin Token"), w).
Proof. intros Hne. unfold verify_admin. by rewrite decide_False. Qed.

(** An admin route that loads, recomputes the document and saves. *)
Lemma admin_rewrite_run cfg out (f : Document.t → Document.t) w :
  (verify_admin cfg (Some (ADMIN_TOKEN cfg)) ;;;
   data <- load_data ;;
   save_data out (f data) ;;;
   ret (JsonStatus "success")) w
  = (Return (JsonStatus "success"),
     (save_data out (f (read_document (data_file w))) w).2).
Proof.
  unfold bind at 1. rewrite verify_admin_accepts.
  unfold load_data. unfold bind at 1. unfold bind at 1.
  pose proof (save_data_returns out (f (read_document (data_file w))) w) as Hret.
  by destruct (save_data out _ w) as [[[]|e] w'].
Qed.

(** X1.  [save_product] with the admin token and the write going through
    answers success and stores a catalog in which the lookup of the
    product's id gives the submitted product, the lookup of every other id
    gives what it gave before, and categories and orders are as before. *)
Theorem save_product_then_lookup cfg out w product :
  disk out = Written →
  let data := read_document (data_file w) in
  let after := save_product cfg out (Some (ADMIN_TOKEN cfg)) product w in
  after.1 = Return (JsonStatus "success")
  ∧ ∃ stored,
      data_file after.2 = FileJson stored
      ∧ find_product (Document.products stored) (Product.id product) = Some product
      ∧ (∀ pid, pid ≠ Product.id product →
                find_product (Document.products stored) pid
                = find_product (Document.products data) pid)
      ∧ Document.categories stored = Document.categories data
      ∧ Document.orders stored = Document.orders data.
Proof.
  intros Hdisk data after. subst data after. unfold save_product.
  rewrite (admin_rewrite_run cfg out
             (λ data, Document.mk (upsert Product.id product (Document.products data))
                                  (Document.categories data) (Document.orders data))).
  split; [done|]. eexists. split; [by apply save_data_written|].
  cbn [Document.products Document.categories Document.orders]. split_and!; try done.
  - apply (upsert_lookup Product.id).
  - intros pid Hne. by apply (upsert_lookup_other Product.id).
Qed.

Lemma save_product_then_lookup_witness :
  let repriced := Product.mk "P1" example_name example_name 12.5 0 "2" "p1.jpg" in
  let after := save_product example_cfg example_out (Some (ADMIN_TOKEN example_cfg))
                            repriced example_world in
  after.1 = Return (JsonStatus "success")
  ∧ ∃ stored,
      data_file after.2 = FileJson stored
      ∧ find_product (Document.products stored) "P1" = Some repriced
      ∧ (∀ pid, pid ≠ "P1" →
                find_product (Document.products stored) pid
                = find_product (Document.products example_store) pid)
      ∧ Document.categories stored = Document.categories example_store
      ∧ Document.orders stored = Document.orders example_store.
Proof.
  exact (save_product_then_lookup example_cfg example_out example_world
           (Product.mk "P1" example_name example_name 12.5 0 "2" "p1.jpg") eq_refl).
Defined.

(** X2.  [save_product] replaces in place or appends: the list of product
    ids it stores is the old list when the id was there, and the old list
    with the id at its end otherwise; so pairwise distinct ids stay pairwise
    distinct. *)
Theorem save_product_keeps_ids cfg out w product :
  disk out = Written →
  let ids := Product.id <$> Document.products (read_document (data_file w)) in
  let after := save_product cfg out (Some (ADMIN_TOKEN cfg)) product w in
  ∃ stored,
    data_file after.2 = FileJson stored
    ∧ Product.id <$> Document.products stored
      = (if decide (Product.id product ∈ ids) then ids else ids ++ [Product.id product])
    ∧ (NoDup ids → NoDup (Product.id <$> Document.products stored)).
Proof.
  intros Hdisk ids after. subst ids after. unfold save_product.
  rewrite (admin_rewrite_run cfg out
             (λ data, Document.mk (upsert Product.id product (Document.products data))
                                  (Document.categories data) (Document.orders data))).
  eexists. split; [by apply save_data_written|]. cbn [Document.products].
  rewrite (upsert_keys Product.id). split; [done|]. intros Hnodup.
  destruct (decide _) as [Hin|Hout]; [done|].
  apply NoDup_app. split_and!; [done| |apply NoDup_singleton].
  by intros id Hin ->%list_elem_of_singleton.
Qed.

Lemma save_product_keeps_ids_witness :
  let added := Product.mk "P2" example_name example_name 4.0 0 "2" "p2.jpg" in
  let after := save_product example_cfg example_out (Some (ADMIN_TOKEN example_cfg))
                            added example_world in
  ∃ stored,
    data_file after.2 = FileJson stored
    ∧ Product.id <$> Document.products stored = ["P1"; "P2"].
Proof.
  destruct (save_product_keeps_ids example_cfg example_out example_world
              (Product.mk "P2" example_name example_name 4.0 0 "2" "p2.jpg") eq_refl)
    as (stored & Hfile & Hids & _).
  exists stored. split; [exact Hfile|exact Hids].
Defined.

(** X3.  [delete_product] with the admin token and the write going through
    answers success whether or not the id is in the catalog; afterwards the
    lookup of that id finds nothing, the lookup of every other id gives what
    it gave before, categories and orders are as before, and when no product
    had the id the stored document is the loaded one. *)
Theorem delete_product_then_lookup cfg out w pid :
  disk out = Written →
  let data := read_document (data_file w) in
  let after := delete_product cfg out (Some (ADMIN_TOKEN cfg)) pid w in
  after.1 = Return (JsonStatus "success")
  ∧ ∃ stored,
      data_file after.2 = FileJson stored
      ∧ find_product (Document.products stored) pid = None
      ∧ (∀ pid', pid' ≠ pid →
                 find_product (Document.products stored) pid'
                 = find_product (Document.products data) pid')
      ∧ Document.categories stored = Document.categories data
      ∧ Document.orders stored = Document.orders data
      ∧ (pid ∉ Product.id <$> Document.products data → stored = data).
Proof.
  intros Hdisk data after. subst data after. unfold delete_product.
  rewrite (admin_rewrite_run cfg out
             (λ data, Document.mk (without Product.id pid (Document.products data))
                                  (Document.categories data) (Document.orders data))).
  split; [done|]. eexists. split; [by apply save_data_written|].
  cbn [Document.products Document.categories Document.orders]. split_and!; try done.
  - apply (without_lookup Product.id).
  - intros pid' Hne. by apply (without_lookup_other Product.id).
  - intros Habsent. rewrite (without_absent Product.id) by done.
    by destruct (read_document (data_file w)).
Qed.

Lemma delete_product_then_lookup_witness :
  let after := delete_product example_cfg example_out (Some (ADMIN_TOKEN example_cfg))
                              "P1" example_world in
  after.1 = Return (JsonStatus "success")
  ∧ data_file after.2 = FileJson (Document.mk [] [] (Some [example_order])).
Proof.
  split; [|reflexivity].
  exact (proj1 (delete_product_then_lookup example_cfg example_out example_world "P1"
                  eq_refl)).
Defined.

(** X4.  [save_category] with the admin token and the write going through
    stores a category list in which the lookup of the category's id gives
    the submitted category and every other lookup is as before; the ids are
    the old ones, with the new id at the end when it was not there;
    products and orders are as before. *)
Theorem save_category_then_lookup cfg out w category :
  disk out = Written →
  let data := read_document (data_file w) in
  let ids := Category.id <$> Document.categories data in
  let after := save_category cfg out (Some (ADMIN_TOKEN cfg)) category w in
  after.1 = Return (JsonStatus "success")
  ∧ ∃ stored,
      data_file after.2 = FileJson stored
      ∧ lookup_by Category.id (Category.id category) (Document.categories stored)
        = Some category
      ∧ (∀ cid, cid ≠ Category.id category →
                lookup_by Category.id cid (Document.categories stored)
                = lookup_by Category.id cid (Document.categories data))
      ∧ Category.id <$> Document.categories stored
        = (if decide (Category.id category ∈ ids) then ids
           else ids ++ [Category.id category])
      ∧ Document.products stored = Document.products data
      ∧ Document.orders stored = Document.orders data.
Proof.
  intros Hdisk data ids after. subst data ids after. unfold save_category.
  rewrite (admin_rewrite_run cfg out
             (λ data, Document.mk (Document.products data)
                        (upsert Category.id category (Document.categories data))
                        (Document.orders data))).
  split; [done|]. eexists. split; [by apply save_data_written|].
  cbn [Document.products Document.categories Document.orders]. split_and!; try done.
  - apply upsert_lookup.
  - intros cid Hne. by apply upsert_lookup_other.
  - apply upsert_keys.
Qed.

Lemma save_category_then_lookup_witness :
  let drinks := Category.mk "3" (Translatable.mk "noushidani" "Drinks" "mashrubat") in
  let after := save_category example_cfg example_out (Some (ADMIN_TOKEN example_cfg))
                             drinks example_world in
  after.1 = Return (JsonStatus "success")
  ∧ data_file after.2
    = FileJson (Document.mk [example_P1] [drinks] (Some [example_order])).
Proof.
  split; [|reflexivity].
  exact (proj1 (save_category_then_lookup example_cfg example_out example_world
                  (Category.mk "3" (Translatable.mk "noushidani" "Drinks" "mashrubat"))
                  eq_refl)).
Defined.

(** X5.  [delete_category] with the admin token and the write going
    through removes every category with the id and nothing else: the
    lookup of the id finds nothing, other lookups are as before, and the
    products are stored as they were, those of the deleted category
    included. *)
Theorem delete_category_then_lookup cfg out w cid :
  disk out = Written →
  let data := read_document (data_file w) in
  let after := delete_category cfg out (Some (ADMIN_TOKEN cfg)) cid w in
  after.1 = Return (JsonStatus "success")
  ∧ ∃ stored,
      data_file after.2 = FileJson stored
      ∧ lookup_by Category.id cid (Document.categories stored) = None
      ∧ (∀ cid', cid' ≠ cid →
                 lookup_by Category.id cid' (Document.categories stored)
                 = lookup_by Category.id cid' (Document.categories data))
      ∧ Document.products stored = Document.products data
      ∧ Document.orders stored = Document.orders data.
Proof.
  intros Hdisk data after. subst data after. unfold delete_category.
  rewrite (admin_rewrite_run cfg out
             (λ data, Document.mk (Document.products data)
                        (without Category.id cid (Document.categories data))
                        (Document.orders data))).
  split; [done|]. eexists. split; [by apply save_data_written|].
  cbn [Document.products Document.categories Document.orders]. split_and!; try done.
  - apply without_lookup.
  - intros cid' Hne. by apply without_lookup_other.
Qed.

Lemma delete_category_then_lookup_witness :
  let w := {| data_file := FileJson (Document.mk seed_products seed_categories (Some []));
              journal := [] |} in
  let after := delete_category example_cfg example_out (Some (ADMIN_TOKEN example_cfg))
                               "2" w in
  after.1 = Return (JsonStatus "success")
  ∧ ∃ stored,
      data_file after.2 = FileJson stored
      ∧ Category.id <$> Document.categories stored = ["1"]
      ∧ Product.category <$> Document.products stored = ["2"].
Proof.
  intros w after.
  destruct (delete_category_then_lookup example_cfg example_out w "2" eq_refl)
    as (Hresp & stored & Hfile & _).
  split; [exact Hresp|]. exists stored. split; [exact Hfile|].
  subst after. cbn in Hfile. injection Hfile as <-. split; reflexivity.
Defined.

(** ** Order status override *)

Lemma list_find_set_status os (P : Order.t → Prop) `{!∀ o, Decision (P o)} i o status :
  (∀ o s, P (Order.set_status s o) ↔ P o) →
  list_find P os = Some (i, o) →
  list_find P (<[i := Order.set_status status o]> os)
  = Some (i, Order.set_status status o).
Proof.
  intros Hstable (Hlook & HP & Hfirst)%list_find_Some. apply list_find_Some.
  split_and!.
  - apply list_lookup_insert_eq. by eapply lookup_lt_Some.
  - by apply Hstable.
  - intros j y Hj Hlt. rewrite list_lookup_insert_ne in Hj by lia. eauto.
Qed.

(** X6.  [update_order_status] with the admin token, on an id some stored
    order carries and with the write going through, answers success and
    stores the same orders with the status of the first order of that id
    replaced: its other fields, [paid] among them, the other orders and the
    catalog are as before, and [get_order_detail] then answers with the
    order under its new status. *)
Theorem update_order_status_sets_status cfg out w oid status os i o :
  Document.orders (read_document (data_file w)) = Some os →
  list_find (λ o, Order.id o = oid) os = Some (i, o) →
  disk out = Written →
  let data := read_document (data_file w) in
  let updated := Order.set_status status o in
  let after := update_order_status cfg out (Some (ADMIN_TOKEN cfg)) (Some oid) status w in
  after.1 = Return (JsonStatus "success")
  ∧ data_file after.2 = FileJson (Document.set_orders (<[i := updated]> os) data)
  ∧ Order.status updated = status
  ∧ Order.paid updated = Order.paid o
  ∧ Order.items updated = Order.items o
  ∧ Order.total_omr updated = Order.total_omr o
  ∧ Order.total_usd updated = Order.total_usd o
  ∧ (∀ j, j ≠ i → <[i := updated]> os !! j = os !! j)
  ∧ (get_order_detail oid after.2).1 = Return (JsonOrder updated).
Proof.
  intros Horders Hfind Hdisk data updated after. subst data updated after.
  assert (list_find (λ o, Some (Order.id o) = Some oid) os = Some (i, o)) as Hfind'.
  { apply list_find_Some in Hfind as (Hlook & Hid & Hfirst). apply list_find_Some.
    split_and!; [done|by f_equal|]. intros j y Hj Hlt [= Hy]. by eapply Hfirst. }
  assert (update_order_status cfg out (Some (ADMIN_TOKEN cfg)) (Some oid) status w
          = (Return (JsonStatus "success"),
             (save_data out (Document.set_orders (<[i := Order.set_status status o]> os)
                                                 (read_document (data_file w))) w).2))
    as ->.
  { unfold update_order_status. unfold bind at 1. rewrite verify_admin_accepts.
    unfold load_data. unfold bind at 1. unfold bind at 1. unfold get_orders.
    rewrite Horders. unfold ret at 1. rewrite Hfind'. unfold bind at 1.
    pose proof (save_data_returns out
      (Document.set_orders (<[i := Order.set_status status o]> os)
                           (read_document (data_file w))) w) as Hret.
    by destruct (save_data out _ w) as [[[]|e] w']. }
  cbn [fst snd]. rewrite save_data_written by done.
  split_and!; try reflexivity.
  - intros j Hne. by apply list_lookup_insert_ne.
  - unfold get_order_detail, load_data. unfold_run.
    rewrite save_data_written by done. cbn [read_document Document.orders Document.set_orders].
    unfold ret. cbv beta iota zeta.
    rewrite (list_find_set_status os (λ o, Order.id o = oid) i o status); [done| |done].
    by intros [] s.
Qed.

Lemma update_order_status_sets_status_witness :
  let after := update_order_status example_cfg example_out
                 (Some (ADMIN_TOKEN example_cfg)) (Some "1699999999000") "delivered"
                 example_world in
  after.1 = Return (JsonStatus "success")
  ∧ data_file after.2
    = FileJson (Document.mk [example_P1] []
                  (Some [Order.set_status "delivered" example_order]))
  ∧ Order.paid (Order.set_status "delivered" example_order) = false.
Proof.
  destruct (update_order_status_sets_status example_cfg example_out example_world
              "1699999999000" "delivered" [example_order] 0 example_order
              eq_refl eq_refl eq_refl) as (Hresp & Hfile & _).
  split; [exact Hresp|]. split; [exact Hfile|reflexivity].
Defined.

(** X7.  [update_order_status] with the admin token on an id no stored
    order carries, or on a payload without an id, raises 404 "Order not
    found" and leaves file and journal as they were. *)
Theorem update_order_status_unknown cfg out w order_id status os :
  Document.orders (read_document (data_file w)) = Some os →
  Forall (λ o, Some (Order.id o) ≠ order_id) os →
  update_order_status cfg out (Some (ADMIN_TOKEN cfg)) order_id status w
  = (Raise (HTTPException 404 "Order not found"), w).
Proof.
  intros Horders Hnone.
  pose proof (proj2 (list_find_None (λ o, Some (Order.id o) = order_id) os) Hnone)
    as Hfind.
  unfold update_order_status. unfold bind at 1. rewrite verify_admin_accepts.
  unfold load_data. unfold_run. rewrite Horders. unfold ret. cbv beta iota zeta.
  by rewrite Hfind.
Qed.

Lemma update_order_status_unknown_witness :
  update_order_status example_cfg example_out (Some (ADMIN_TOKEN example_cfg)) None
                      "confirmed" example_world
  = (Raise (HTTPException 404 "Order not found"), example_world).
Proof.
  apply (update_order_status_unknown example_cfg example_out example_world None
           "confirmed" [example_order] eq_refl).
  repeat constructor. discriminate.
Defined.

(** ** The admin token *)

(** X8.  Without the admin token in the header, every guarded admin route
    raises 403 "Invalid Admin Token" before it reads or writes anything:
    file and journal are as they were. *)
Theorem admin_routes_need_the_token cfg out w token :
  token ≠ Some (ADMIN_TOKEN cfg) →
  let refused {A} : Outcome A * World :=
    (Raise (HTTPException 403 "Invalid Admin Token"), w) in
  get_admin_data cfg token w = refused
  ∧ (∀ product, save_product cfg out token product w = refused)
  ∧ (∀ pid, delete_product cfg out token pid w = refused)
  ∧ (∀ category, save_category cfg out token category w = refused)
  ∧ (∀ cid, delete_category cfg out token cid w = refused)
  ∧ (∀ order_id status, update_order_status cfg out token order_id status w = refused)
  ∧ (∀ content, restore_backup cfg out token content w = refused).
Proof.
  intros Hne refused. subst refused.
  unfold get_admin_data, save_product, delete_product, save_category, delete_category,
    update_order_status, restore_backup.
  split_and!; intros; unfold bind at 1; by rewrite (verify_admin_refuses _ _ _ Hne).
Qed.

Lemma admin_routes_need_the_token_witness :
  delete_product example_cfg example_out None "P1" example_world
  = (Raise (HTTPException 403 "Invalid Admin Token"), example_world)
  ∧ restore_backup example_cfg example_out (Some "guess") (JsonObject (Some []) (Some []) None)
                   example_world
    = (Raise (HTTPException 403 "Invalid Admin Token"), example_world).
Proof.
  split.
  - refine (proj1 (proj2 (proj2 (admin_routes_need_the_token example_cfg example_out
                                   example_world None _))) "P1").
    discriminate.
  - refine (proj2 (proj2 (proj2 (proj2 (proj2 (proj2
              (admin_routes_need_the_token example_cfg example_out example_world
                 (Some "guess") _))))))
              (JsonObject (Some []) (Some []) None)).
    discriminate.
Defined.

(** X9.  The three token tests agree: [admin_login] answers success for
    exactly the tokens [verify_admin] lets through, and [download_backup]
    serves the file for exactly those tokens; a refused login raises 401 and
    a refused download 403, and none of them touches file or journal. *)
Theorem token_checks_agree cfg w :
  (∀ token,
     ((admin_login cfg token w).1 = Return (JsonStatus "success")
      ↔ (verify_admin cfg token w).1 = Return true)
     ∧ ((admin_login cfg token w).1 = Raise (HTTPException 401 "Invalid Token")
        ↔ (verify_admin cfg token w).1 = Raise (HTTPException 403 "Invalid Admin Token"))
     ∧ (admin_login cfg token w).2 = w)
  ∧ (∀ token,
       ((download_backup cfg token w).1 = Return (data_file w)
        ↔ (verify_admin cfg (Some token) w).1 = Return true)
       ∧ ((download_backup cfg token w).1 = Raise (HTTPException 403 "Forbidden")
          ↔ (verify_admin cfg (Some token) w).1
            = Raise (HTTPException 403 "Invalid Admin Token"))
       ∧ (download_backup cfg token w).2 = w).
Proof.
  split; intros token; unfold admin_login, download_backup, verify_admin.
  - destruct (decide (token = Some (ADMIN_TOKEN cfg))); cbn; split_and!; try done;
      split; intros; try done; discriminate.
  - destruct (decide (token = ADMIN_TOKEN cfg)) as [->|Hne].
    + rewrite decide_True by done. cbn. split_and!; try done; split; intros; try done;
        discriminate.
    + rewrite decide_False by congruence. cbn. split_and!; try done; split; intros;
        try done; discriminate.
Qed.

(** ** The store file *)

(** X12.  [seed_data], the write going through, stores a document whose
    orders are the loaded ones, whose categories and products are the loaded
    ones wherever those were not empty, and in which neither collection is
    empty; on a missing file [ensure_data_file] thereby creates the document
    of the two seed categories, the seed product and no orders. *)
Theorem seed_data_fills_only_what_is_empty out :
  disk out = Written →
  (∀ w,
     let data := read_document (data_file w) in
     ∃ stored,
       data_file (seed_data out w).2 = FileJson stored
       ∧ Document.orders stored = Document.orders data
       ∧ (Document.categories data ≠ [] →
          Document.categories stored = Document.categories data)
       ∧ (Document.products data ≠ [] →
          Document.products stored = Document.products data)
       ∧ Document.categories stored ≠ []
       ∧ Document.products stored ≠ [])
  ∧ (∀ journal0,
       data_file (ensure_data_file out {| data_file := FileAbsent; journal := journal0 |}).2
       = FileJson (Document.mk seed_products seed_categories (Some []))).
Proof.
  intros Hdisk. split.
  - intros w data. subst data. unfold seed_data, load_data. unfold bind at 1.
    eexists. split; [by apply save_data_written|].
    cbn [Document.orders Document.categories Document.products].
    destruct (Document.categories (read_document (data_file w))),
             (Document.products (read_document (data_file w))); by split_and!.
  - intros journal0. unfold ensure_data_file, seed_data, load_data, save_data.
    cbn [data_file]. unfold_run. by rewrite Hdisk.
Qed.

Lemma seed_data_fills_only_what_is_empty_witness :
  data_file (ensure_data_file example_out {| data_file := FileAbsent; journal := [] |}).2
  = FileJson (Document.mk seed_products seed_categories (Some []))
  ∧ data_file (seed_data example_out example_world).2
    = FileJson (Document.mk [example_P1] seed_categories (Some [example_order])).
Proof.
  split; [|reflexivity].
  exact (proj2 (seed_data_fills_only_what_is_empty example_out eq_refl) []).
Defined.

(** X13.  Backup and restore round trip: uploading, with the admin token
    and the write going through, the backup downloaded while the file held a
    document stores that document again, whatever the file holds by then; a
    backup downloaded from an undecodable file is refused with 400 and
    changes nothing. *)
Theorem backup_restore_round_trip cfg out :
  disk out = Written →
  (∀ w w' d,
     data_file w = FileJson d →
     ∀ backup,
       (download_backup cfg (ADMIN_TOKEN cfg) w).1 = Return backup →
       let after := restore_backup cfg out (Some (ADMIN_TOKEN cfg))
                                   (upload_of_backup backup) w' in
       after.1 = Return (JsonStatus "success") ∧ data_file after.2 = FileJson d)
  ∧ (∀ w w',
       data_file w = FileGarbled →
       ∀ backup,
         (download_backup cfg (ADMIN_TOKEN cfg) w).1 = Return backup →
         restore_backup cfg out (Some (ADMIN_TOKEN cfg)) (upload_of_backup backup) w'
         = (Raise (HTTPException 400 "Invalid backup file"), w')).
Proof.
  intros Hdisk. split.
  - intros w w' d Hfile backup. unfold download_backup. rewrite decide_True by done.
    cbn. intros [= <-]. rewrite Hfile. cbn [upload_of_backup].
    unfold restore_backup, save_data. unfold_run.
    rewrite verify_admin_accepts, Hdisk. cbn. by destruct d.
  - intros w w' Hfile backup. unfold download_backup. rewrite decide_True by done.
    cbn. intros [= <-]. rewrite Hfile. cbn [upload_of_backup].
    apply restore_rejects_incomplete. exact I.
Qed.

Lemma backup_restore_round_trip_witness :
  let after := restore_backup example_cfg example_out (Some (ADMIN_TOKEN example_cfg))
                              (upload_of_backup (FileJson example_store)) fresh_world in
  after.1 = Return (JsonStatus "success") ∧ data_file after.2 = FileJson example_store.
Proof.
  exact (proj1 (backup_restore_round_trip example_cfg example_out eq_refl)
           example_world fresh_world example_store eq_refl (FileJson example_store)
           eq_refl).
Defined.

(** ** Priced lines *)

Lemma find_product_id products pid prod :
  find_product products pid = Some prod → Product.id prod = pid.
Proof.
  unfold find_product. intros Hfind.
  destruct (list_find _ products) as [[i p]|] eqn:Hlist; cbn in Hfind; [|done].
  simplify_eq. by apply list_find_Some in Hlist as (_ & Hid & _).
Qed.

(** The lines the loop adds to its accumulator, when it comes to its end. *)
Lemma price_loop_lines products items :
  ∀ acc acc',
    price_loop products items acc = Return acc' →
    order_line <$> acc'.2
    = (order_line <$> acc.2) ++ (cart_line <$> filter (resolvable products) items)
    ∧ (Forall (line_of_catalog products) acc.2 →
       Forall (line_of_catalog products) acc'.2).
Proof.
  induction items as [|item items IH]; intros acc acc' Hloop.
  - cbn in Hloop. injection Hloop as <-. by rewrite filter_nil, app_nil_r.
  - cbn [price_loop and_then] in Hloop. rewrite filter_cons.
    unfold price_item in Hloop.
    destruct (find_product products (CartItem.id item)) as [prod|] eqn:Hfind.
    + rewrite decide_True by (by exists prod).
      destruct (final_price prod) as [price|e] eqn:Hprice; [|discriminate].
      cbn [and_then] in Hloop.
      destruct (float_of_int (CartItem.quantity item)) as [quantity|e];
        [|discriminate].
      cbn [and_then] in Hloop. destruct (IH _ _ Hloop) as [Hlines Hcatalog].
      cbn [snd] in *. split.
      * rewrite Hlines, fmap_app, <- app_assoc. do 2 f_equal.
        unfold order_line, cart_line. cbn. by rewrite (find_product_id _ _ _ Hfind).
      * intros Hacc. apply Hcatalog, Forall_app. split; [done|].
        apply Forall_singleton. exists prod. cbn.
        by rewrite (find_product_id _ _ _ Hfind).
    + rewrite decide_False by (unfold resolvable; rewrite Hfind; by intros [? ?]).
      cbn [and_then] in Hloop. by apply IH.
Qed.

(** X14.  When the pricing of a cart comes to its end, the priced lines
    are, in cart order, the cart lines whose id resolves, each with the
    quantity asked for (lines are neither merged nor reordered), and each
    carries the name and the discounted unit price of the product its id
    finds in the catalog. *)
Theorem priced_lines_follow_the_cart products items priced :
  price_order products items = Return priced →
  order_line <$> Priced.full_items priced
  = cart_line <$> filter (resolvable products) items
  ∧ Forall (line_of_catalog products) (Priced.full_items priced).
Proof.
  unfold price_order. intros Hpriced.
  destruct (price_loop products items (0%float, [])) as [acc|e] eqn:Hloop;
    [|discriminate].
  cbn [and_then] in Hpriced. injection Hpriced as <-. cbn [Priced.full_items].
  destruct (price_loop_lines products items _ _ Hloop) as [Hlines Hcatalog].
  split; [exact Hlines|]. apply Hcatalog. constructor.
Qed.

Lemma priced_lines_follow_the_cart_witness :
  order_line <$> Priced.full_items example_priced = [("P1", 2%Z)]
  ∧ Forall (line_of_catalog [example_P1]) (Priced.full_items example_priced).
Proof.
  exact (priced_lines_follow_the_cart [example_P1] example_cart example_priced eq_refl).
Defined.

(** ** The base url *)

Lemma append_slashes_assoc c s n : String c s +:+ slashes n = String c (s +:+ slashes n).
Proof. reflexivity. Qed.

(** X15.  [rstrip_slash] removes the trailing slashes and nothing else: the
    string is what it returns followed by slashes only, and what it returns
    does not end in a slash; hence stripping twice is stripping once. *)
Theorem rstrip_slash_strips_trailing_slashes s :
  (∃ n, s = rstrip_slash s +:+ slashes n)
  ∧ last_char (rstrip_slash s) ≠ Some "/"%char
  ∧ rstrip_slash (rstrip_slash s) = rstrip_slash s.
Proof.
  assert ((∃ n, s = rstrip_slash s +:+ slashes n)
          ∧ last_char (rstrip_slash s) ≠ Some "/"%char) as [Hparts Hlast].
  { induction s as [|c rest [[n Hrest] Hlast]]; [split; [by exists 0|done]|].
    cbn [rstrip_slash]. destruct (rstrip_slash rest) as [|c' kept] eqn:Hkept.
    - cbn in Hrest. destruct (Ascii.eqb_spec c "/"%char) as [->|Hc].
      + split; [|done]. exists (S n). cbn. by rewrite Hrest at 1.
      + split; [|cbn; congruence]. exists n. cbn. by rewrite Hrest at 1.
    - split; [|exact Hlast]. exists n. rewrite append_slashes_assoc.
      by rewrite Hrest at 1. }
  split_and!; [done|done|].
  clear Hparts. induction (rstrip_slash s) as [|c kept IH]; [done|].
  cbn [rstrip_slash]. destruct kept as [|c' kept'].
  - cbn in *. destruct (Ascii.eqb_spec c "/"%char) as [->|Hc]; [done|done].
  - rewrite IH; [done|]. exact Hlast.
Qed.

(** ** The gateway token *)

(** X16.  With client id and secret configured, every checkout and
    capture request is preceded by one token request made with those
    credentials and carries the token it returned as [Bearer] header; when
    the token request fails, the failure is logged and raised, and no
    checkout or capture request is posted.  No call touches the file. *)
Theorem gateway_calls_carry_the_token cfg out w client_id secret :
  PAYPAL_CLIENT_ID cfg = Some client_id →
  PAYPAL_SECRET cfg = Some secret →
  client_id ≠ "" → secret ≠ "" →
  let asked := journal w ++ [HttpToken client_id secret] in
  (∀ access_token,
     oauth_reply out = Reply access_token →
     (∀ total r c,
        create_payment cfg out total r c w
        = (match checkout_reply out with Reply body => Return body | Fault e => Raise e end,
           {| data_file := data_file w;
              journal := asked ++ [HttpCheckout ("Bearer " +:+ access_token)
                                                (format_2f total) r c] |}))
     ∧ (∀ order_id,
          capture_payment cfg out order_id w
          = (match capture_reply out with Reply body => Return body | Fault e => Raise e end,
             {| data_file := data_file w;
                journal := asked ++ [HttpCapture ("Bearer " +:+ access_token) order_id] |})))
  ∧ (∀ e,
       oauth_reply out = Fault e →
       let failed {A} : Outcome A * World :=
         (Raise e, {| data_file := data_file w;
                      journal := asked ++ [LogError "PayPal Token Error"] |}) in
       (∀ total r c, create_payment cfg out total r c w = failed)
       ∧ (∀ order_id, capture_payment cfg out order_id w = failed)).
Proof.
  intros Hid Hsecret Hid_ne Hsecret_ne asked. subst asked.
  assert (negb (truthy (PAYPAL_CLIENT_ID cfg)) || negb (truthy (PAYPAL_SECRET cfg)) = false)
    as Hguard.
  { rewrite Hid, Hsecret. by destruct client_id, secret. }
  unfold create_payment, capture_payment, get_access_token. unfold_run.
  rewrite Hguard, Hid, Hsecret. cbn. split.
  - intros access_token ->. cbn. split.
    + intros total r c. by destruct (checkout_reply out).
    + intros order_id. by destruct (capture_reply out).
  - by intros e ->.
Qed.

Lemma gateway_calls_carry_the_token_witness :
  capture_payment example_cfg example_out "EC-8GB67279RC051624C" example_world
  = (Return tt,
     {| data_file := data_file example_world;
        journal := [HttpToken "client-id" "client-secret";
                    HttpCapture "Bearer A21AAFEpH4PsADK7qSS7pSRsgz"
                                "EC-8GB67279RC051624C"] |}).
Proof.
  refine (proj2 (proj1 (gateway_calls_carry_the_token example_cfg example_out
                          example_world "client-id" "client-secret"
                          eq_refl eq_refl _ _)
                   "A21AAFEpH4PsADK7qSS7pSRsgz" eq_refl) "EC-8GB67279RC051624C");
    discriminate.
Defined.

(** ** From creation to finalization *)

(** The response and the file of a finalization whose capture and write
    succeed. *)
Lemma payment_success_capture_run cfg out w oid token os i o :
  Document.orders (read_document (data_file w)) = Some os →
  list_find (λ o, Order.id o = oid) os = Some (i, o) →
  (capture_payment cfg out token w).1 = Return tt →
  disk out = Written →
  (payment_success cfg out oid token w).1
  = Return (RedirectResponse ("/success?oid=" +:+ oid))
  ∧ data_file (payment_success cfg out oid token w).2
    = FileJson (Document.set_orders (<[i := confirmed o]> os)
                                    (read_document (data_file w))).
Proof.
  intros Horders Hfind Hcapture Hdisk.
  rewrite (payment_success_found _ _ _ _ _ _ _ _ Horders Hfind).
  destruct (capture_payment cfg out token w) as [[[]|e] w1]; [|discriminate].
  cbn [fst snd]. split; [done|].
  rewrite (proj2 (send_order_returns _ _ _ _)). by apply save_data_written.
Qed.

Lemma list_find_fresh_snoc os oid (o : Order.t) :
  oid ∉ order_ids os → Order.id o = oid →
  list_find (λ o, Order.id o = oid) (os ++ [o]) = Some (length os, o).
Proof.
  intros Hfresh Hid. apply list_find_app_Some. right. split_and!; [lia| |].
  - apply list_find_None, Forall_forall. intros o' Hin Hid'. apply Hfresh.
    rewrite <- Hid'. by apply list_elem_of_fmap_2.
  - rewrite Nat.sub_diag. cbn. by rewrite decide_True.
Qed.

(** X17.  From creation to finalization: after a creation that stored its
    order under an id no earlier order carries, the lookup by that id
    answers with the pending order, and the gateway's return to the success
    route with that id, the capture and the write succeeding, leaves the
    earlier orders as they were and the new order confirmed and paid, with
    the items and totals it was created with. *)
Theorem create_then_finalize
    cfg out1 out2 w base_url order_req priced paypal_order k link os token :
  Document.orders (read_document (data_file w)) = Some os →
  str_of_int (clock_ms out1) ∉ order_ids os →
  price_order (Document.products (read_document (data_file w)))
              (OrderRequest.items order_req) = Return priced →
  (session_of_request cfg out1 base_url order_req w).1 = Return paypal_order →
  list_find (λ link, Link.rel link = "approve") (PayPalOrder.links paypal_order)
  = Some (k, link) →
  disk out1 = Written →
  let data := read_document (data_file w) in
  let oid := str_of_int (clock_ms out1) in
  let pending := order_of_request out1 order_req priced paypal_order in
  let w1 := (create_order cfg out1 base_url order_req w).2 in
  (get_order_detail oid w1).1 = Return (JsonOrder pending)
  ∧ Order.items (confirmed pending) = Order.items pending
  ∧ Order.total_omr (confirmed pending) = Order.total_omr pending
  ∧ Order.total_usd (confirmed pending) = Order.total_usd pending
  ∧ ((capture_payment cfg out2 token w1).1 = Return tt →
     disk out2 = Written →
     let after := payment_success cfg out2 oid token w1 in
     after.1 = Return (RedirectResponse ("/success?oid=" +:+ oid))
     ∧ data_file after.2
       = FileJson (Document.set_orders (os ++ [confirmed pending]) data)).
Proof.
  intros Horders Hfresh Hpriced Hsession Hlink Hdisk data oid pending w1.
  destruct (create_order_stored cfg out1 w base_url order_req priced paypal_order k link
              os Hpriced Horders Hsession Hlink Hdisk) as [_ Hfile].
  fold data pending w1 in Hfile.
  assert (Document.orders (read_document (data_file w1)) = Some (os ++ [pending]))
    as Horders1 by (by rewrite Hfile).
  assert (list_find (λ o, Order.id o = oid) (os ++ [pending]) = Some (length os, pending))
    as Hfind by (by apply list_find_fresh_snoc).
  split_and!; try reflexivity.
  - unfold get_order_detail, load_data. unfold_run. rewrite Horders1.
    unfold ret. cbv beta iota zeta. by rewrite Hfind.
  - intros Hcapture Hdisk2 after. subst after.
    destruct (payment_success_capture_run cfg out2 w1 oid token (os ++ [pending])
                (length os) pending Horders1 Hfind Hcapture Hdisk2) as [-> ->].
    split; [done|]. rewrite Hfile. cbn. f_equal. unfold Document.set_orders. cbn.
    do 2 f_equal. rewrite insert_app_r_alt by lia. by rewrite Nat.sub_diag.
Qed.

Lemma create_then_finalize_witness :
  let w1 := (create_order example_cfg example_out "http://testserver/" example_request
                          example_world).2 in
  let pending := order_of_request example_out example_request example_priced
                                  example_session in
  let after := payment_success example_cfg example_out "1700000000000"
                               "EC-5O190127TN364715T" w1 in
  (get_order_detail "1700000000000" w1).1 = Return (JsonOrder pending)
  ∧ after.1 = Return (RedirectResponse "/success?oid=1700000000000")
  ∧ data_file after.2
    = FileJson (Document.mk [example_P1] []
                  (Some [example_order; confirmed pending])).
Proof.
  intros w1 pending after.
  assert (str_of_int (clock_ms example_out) ∉ order_ids [example_order]) as Hfresh.
  { intros Hin%list_elem_of_singleton. vm_compute in Hin. discriminate. }
  destruct (create_then_finalize example_cfg example_out example_out example_world
              "http://testserver/" example_request example_priced example_session 1
              (Link.mk "https://www.sandbox.paypal.com/checkoutnow?token=5O190127TN364715T"
                       "approve")
              [example_order] "EC-5O190127TN364715T"
              eq_refl Hfresh eq_refl eq_refl eq_refl eq_refl)
    as (Hlookup & _ & _ & _ & Hfinal).
  destruct (Hfinal eq_refl eq_refl) as [Hresp Hfile].
  split; [exact Hlookup|]. split; [exact Hresp|exact Hfile].
Defined.

(** X18.  When an earlier stored order already carries the id a creation
    generates, the gateway's return with that id finalizes the earlier
    order: the capture and the writes succeeding, the earlier order is
    stored confirmed and paid, and the order just created stays pending and
    unpaid at the end of the list. *)
Theorem stale_id_finalizes_the_earlier_order
    cfg out1 out2 w base_url order_req priced paypal_order k link os i o token :
  Document.orders (read_document (data_file w)) = Some os →
  list_find (λ o, Order.id o = str_of_int (clock_ms out1)) os = Some (i, o) →
  price_order (Document.products (read_document (data_file w)))
              (OrderRequest.items order_req) = Return priced →
  (session_of_request cfg out1 base_url order_req w).1 = Return paypal_order →
  list_find (λ link, Link.rel link = "approve") (PayPalOrder.links paypal_order)
  = Some (k, link) →
  disk out1 = Written →
  let data := read_document (data_file w) in
  let oid := str_of_int (clock_ms out1) in
  let pending := order_of_request out1 order_req priced paypal_order in
  let w1 := (create_order cfg out1 base_url order_req w).2 in
  (capture_payment cfg out2 token w1).1 = Return tt →
  disk out2 = Written →
  let after := payment_success cfg out2 oid token w1 in
  after.1 = Return (RedirectResponse ("/success?oid=" +:+ oid))
  ∧ data_file after.2
    = FileJson (Document.set_orders (<[i := confirmed o]> os ++ [pending]) data)
  ∧ Order.status pending = "pending_payment"
  ∧ Order.paid pending = false.
Proof.
  intros Horders Hstale Hpriced Hsession Hlink Hdisk data oid pending w1 Hcapture Hdisk2
         after.
  subst after.
  destruct (create_order_stored cfg out1 w base_url order_req priced paypal_order k link
              os Hpriced Horders Hsession Hlink Hdisk) as [_ Hfile].
  fold data pending w1 in Hfile.
  assert (Document.orders (read_document (data_file w1)) = Some (os ++ [pending]))
    as Horders1 by (by rewrite Hfile).
  assert (list_find (λ o, Order.id o = oid) (os ++ [pending]) = Some (i, o)) as Hfind.
  { apply list_find_app_Some. by left. }
  destruct (payment_success_capture_run cfg out2 w1 oid token (os ++ [pending])
              i o Horders1 Hfind Hcapture Hdisk2) as [-> ->].
  split_and!; try reflexivity.
  rewrite Hfile. cbn. unfold Document.set_orders. cbn. do 3 f_equal.
  apply insert_app_l. apply list_find_Some in Hstale as (Hlook & _).
  by eapply lookup_lt_Some.
Qed.

Lemma stale_id_finalizes_the_earlier_order_witness :
  let w1 := (create_order example_cfg example_out "http://testserver/" example_request
                          fresh_world).2 in
  let first := order_of_request example_out example_request example_priced
                                example_session in
  let second := order_of_request example_out other_request example_priced
                                 example_session in
  let w2 := (create_order example_cfg example_out "http://testserver/" other_request
                          w1).2 in
  let after := payment_success example_cfg example_out "1700000000000"
                               "EC-5O190127TN364715T" w2 in
  after.1 = Return (RedirectResponse "/success?oid=1700000000000")
  ∧ data_file after.2
    = FileJson (Document.mk [example_P1] [] (Some [confirmed first; second])).
Proof.
  intros w1 first second w2 after.
  destruct (stale_id_finalizes_the_earlier_order example_cfg example_out example_out w1
              "http://testserver/" other_request example_priced example_session 1
              (Link.mk "https://www.sandbox.paypal.com/checkoutnow?token=5O190127TN364715T"
                       "approve")
              [first] 0 first "EC-5O190127TN364715T"
              eq_refl eq_refl eq_refl eq_refl eq_refl eq_refl eq_refl eq_refl)
    as (Hresp & Hfile & _).
  split; [exact Hresp|exact Hfile].
Defined.

(** ** Finalizing again, and what finalizing writes *)

Lemma capture_payment_any_world cfg out token w w' :
  (capture_payment cfg out token w).1 = (capture_payment cfg out token w').1.
Proof.
  unfold capture_payment, get_access_token. unfold_run.
  destruct (negb _ || negb _); cbn; [by destruct (capture_reply out)|].
  destruct (oauth_reply out); cbn; [|done]. by destruct (capture_reply out).
Qed.

Lemma capture_payment_posts_once cfg out token w :
  (capture_payment cfg out token w).1 = Return tt →
  length (List.filter is_capture (journal (capture_payment cfg out token w).2))
  = length (List.filter is_capture (journal w)) + 1.
Proof.
  unfold capture_payment, get_access_token. unfold_run.
  destruct (negb _ || negb _); cbn;
    [|destruct (oauth_reply out); cbn; [|discriminate]];
    (destruct (capture_reply out); cbn; [|discriminate]);
    intros _; rewrite !List.filter_app, !length_app; cbn; lia.
Qed.

Lemma save_data_captures out data w :
  List.filter is_capture (journal (save_data out data w).2)
  = List.filter is_capture (journal w).
Proof.
  unfold save_data. destruct (disk out); cbn; rewrite List.filter_app; cbn;
    by rewrite app_nil_r.
Qed.

Lemma send_order_captures cfg out order w :
  List.filter is_capture (journal (send_order cfg out order w).2)
  = List.filter is_capture (journal w).
Proof.
  unfold send_order. unfold_run.
  destruct (negb _ || negb _); cbn; [|destruct (telegram_reply out); cbn];
    rewrite ?List.filter_app; cbn; by rewrite ?app_nil_r.
Qed.

(** X19.  Finalizing an order again: with captures and writes succeeding,
    a second return to the success route for the same order answers the
    same redirect and leaves the file as the first left it, and it posts a
    capture request of its own; the route does not look at [paid] before it
    captures. *)
Theorem finalizing_twice cfg out w oid token os i o :
  Document.orders (read_document (data_file w)) = Some os →
  list_find (λ o, Order.id o = oid) os = Some (i, o) →
  (capture_payment cfg out token w).1 = Return tt →
  disk out = Written →
  let captures (w : World) := length (List.filter is_capture (journal w)) in
  let once := payment_success cfg out oid token w in
  let twice := payment_success cfg out oid token once.2 in
  twice.1 = once.1
  ∧ data_file twice.2 = data_file once.2
  ∧ captures once.2 = captures w + 1
  ∧ captures twice.2 = captures w + 2.
Proof.
  intros Horders Hfind Hcapture Hdisk captures once twice.
  destruct (payment_success_capture_run cfg out w oid token os i o
              Horders Hfind Hcapture Hdisk) as [Hresp Hfile].
  fold once in Hresp, Hfile.
  assert (Document.orders (read_document (data_file once.2))
          = Some (<[i := confirmed o]> os)) as Horders1 by (by rewrite Hfile).
  pose proof (list_find_confirmed os oid i o Hfind) as Hfind1.
  assert ((capture_payment cfg out token once.2).1 = Return tt) as Hcapture1
    by (by rewrite (capture_payment_any_world cfg out token once.2 w)).
  destruct (payment_success_capture_run cfg out once.2 oid token _ i (confirmed o)
              Horders1 Hfind1 Hcapture1 Hdisk) as [Hresp2 Hfile2].
  fold twice in Hresp2, Hfile2.
  assert (∀ w0 os0 i0 o0,
            Document.orders (read_document (data_file w0)) = Some os0 →
            list_find (λ o, Order.id o = oid) os0 = Some (i0, o0) →
            (capture_payment cfg out token w0).1 = Return tt →
            captures (payment_success cfg out oid token w0).2 = captures w0 + 1)
    as Hcount.
  { intros w0 os0 i0 o0 Ho Hf Hc. unfold captures.
    rewrite (payment_success_found _ _ _ _ _ _ _ _ Ho Hf).
    pose proof (capture_payment_posts_once cfg out token w0 Hc) as Hposts.
    destruct (capture_payment cfg out token w0) as [[[]|e] w1]; [|discriminate].
    cbn [fst snd] in *. by rewrite send_order_captures, save_data_captures. }
  split_and!.
  - by rewrite Hresp, Hresp2.
  - rewrite Hfile2, Hfile. unfold Document.set_orders.
    cbn [read_document Document.products Document.categories].
    by rewrite list_insert_insert_eq.
  - by apply (Hcount w os i o).
  - subst twice. rewrite (Hcount once.2 _ i (confirmed o) Horders1 Hfind1 Hcapture1).
    subst once. rewrite (Hcount w os i o Horders Hfind Hcapture). lia.
Qed.

Lemma finalizing_twice_witness :
  let once := payment_success example_cfg example_out "1699999999000"
                              "EC-8GB67279RC051624C" example_world in
  let twice := payment_success example_cfg example_out "1699999999000"
                               "EC-8GB67279RC051624C" once.2 in
  twice.1 = once.1
  ∧ data_file twice.2 = data_file once.2
  ∧ length (List.filter is_capture (journal twice.2)) = 2.
Proof.
  intros once twice.
  destruct (finalizing_twice example_cfg example_out example_world "1699999999000"
              "EC-8GB67279RC051624C" [example_order] 0 example_order
              eq_refl eq_refl eq_refl eq_refl) as (Hresp & Hfile & _ & Hcount).
  split; [exact Hresp|]. split; [exact Hfile|exact Hcount].
Defined.

(** What each call adds to the writes. *)
Lemma save_data_writes out data w :
  writes (save_data out data w).2 = writes w ++ [FileWrite data (disk out)].
Proof.
  unfold writes, save_data. destruct (disk out); cbn; by rewrite List.filter_app.
Qed.

Lemma send_order_writes cfg out order w :
  writes (send_order cfg out order w).2 = writes w.
Proof.
  unfold writes, send_order. unfold_run.
  destruct (negb _ || negb _); cbn; [|destruct (telegram_reply out); cbn];
    rewrite ?List.filter_app; cbn; by rewrite ?app_nil_r.
Qed.

Lemma capture_payment_writes cfg out token w :
  writes (capture_payment cfg out token w).2 = writes w.
Proof.
  destruct (capture_payment_journal cfg out token w) as (evs & Hjournal & _ & Hwrite & _).
  unfold writes. by rewrite Hjournal, List.filter_app, Hwrite, app_nil_r.
Qed.

Lemma create_payment_writes cfg out total r c w :
  writes (create_payment cfg out total r c w).2 = writes w.
Proof.
  unfold writes, create_payment, get_access_token. unfold_run.
  destruct (negb _ || negb _); cbn;
    [|destruct (oauth_reply out); cbn];
    try destruct (checkout_reply out); cbn;
    rewrite ?List.filter_app; cbn; by rewrite ?app_nil_r.
Qed.

Lemma session_of_request_writes cfg out base_url order_req w :
  writes (session_of_request cfg out base_url order_req w).2 = writes w.
Proof.
  unfold session_of_request. destruct (price_order _ _); [|reflexivity].
  apply create_payment_writes.
Qed.

(** X20.  What [payment_success] writes, whatever the gateway, the channel
    and the disk do.  A run hands no document to [save_data], or exactly
    one: it does so when the order is found in the document loaded at its
    first line and the capture returns, and the document it hands over is
    that loaded document with the order found turned into its confirmed
    form, in place.  Products and categories are the loaded ones, no order is
    added, dropped or moved, and no id, customer, item, price or total
    differs from the loaded one. *)
Theorem payment_success_only_confirms cfg out w oid token :
  let loaded := read_document (data_file w) in
  let after := payment_success cfg out oid token w in
  writes after.2 = writes w
  ∨ ∃ os i o,
      Document.orders loaded = Some os
      ∧ list_find (λ o, Order.id o = oid) os = Some (i, o)
      ∧ (capture_payment cfg out token w).1 = Return tt
      ∧ writes after.2
        = writes w
          ++ [FileWrite (Document.mk (Document.products loaded)
                                     (Document.categories loaded)
                                     (Some (<[i := confirmed o]> os)))
                        (disk out)]
      ∧ Forall2 (λ o o', o' = o ∨ o' = confirmed o) os (<[i := confirmed o]> os)
      ∧ Forall2 (λ o o', Order.id o' = Order.id o
                         ∧ Order.customer o' = Order.customer o
                         ∧ Order.items o' = Order.items o
                         ∧ Order.total_omr o' = Order.total_omr o
                         ∧ Order.total_usd o' = Order.total_usd o)
                os (<[i := confirmed o]> os).
Proof.
  intros loaded after. subst loaded after.
  destruct (Document.orders (read_document (data_file w))) as [os|] eqn:Horders.
  - destruct (list_find (λ o, Order.id o = oid) os) as [[i o]|] eqn:Hfind.
    + rewrite (payment_success_found _ _ _ _ _ _ _ _ Horders Hfind).
      pose proof (capture_payment_writes cfg out token w) as Hwrites.
      destruct (capture_payment cfg out token w) as [[[]|e] w1]; cbn [fst snd] in *.
      * right. exists os, i, o. rewrite send_order_writes, save_data_writes, Hwrites.
        apply list_find_Some in Hfind as Hfound. destruct Hfound as (Hlook & _).
        split_and!; [done|done|done|done| |].
        -- rewrite <- (list_insert_id os i o Hlook) at 1.
           apply Forall2_insert; [|by right].
           apply Forall_Forall2_diag, Forall_forall. by left.
        -- rewrite <- (list_insert_id os i o Hlook) at 1.
           apply Forall2_insert; [|done].
           by apply Forall_Forall2_diag, Forall_forall.
      * left. unfold writes in *. cbn [journal]. rewrite List.filter_app. cbn.
        by rewrite app_nil_r.
    + left. unfold payment_success, load_data. unfold_run. rewrite Horders.
      unfold ret. cbv beta iota zeta. by rewrite Hfind.
  - left. unfold payment_success, load_data. unfold_run. by rewrite Horders.
Qed.

(** ** What a creation writes, and what it asks the gateway *)

Lemma create_payment_posts cfg out total r c w paypal_order :
  (create_payment cfg out total r c w).1 = Return paypal_order →
  ∃ authorization evs,
    journal (create_payment cfg out total r c w).2
    = journal w ++ evs ++ [HttpCheckout authorization (format_2f total) r c].
Proof.
  unfold create_payment, get_access_token. unfold_run.
  destruct (negb _ || negb _); cbn.
  - destruct (checkout_reply out); cbn; [|discriminate]. intros _.
    eexists _, [_]. by rewrite <- app_assoc.
  - destruct (oauth_reply out); cbn; [|discriminate].
    destruct (checkout_reply out); cbn; [|discriminate]. intros _.
    eexists _, [_]. by rewrite <- app_assoc.
Qed.

Lemma price_order_settlement products items priced :
  price_order products items = Return priced →
  Priced.total_usd priced = (Priced.calculated_total priced * OMR_TO_USD_RATE)%float.
Proof.
  unfold price_order. destruct (price_loop _ _ _) as [acc|e]; [|discriminate].
  by intros [= <-].
Qed.

(** X21.  What [create_order] writes, whatever the gateway and the disk do.
    A run hands no document to [save_data], or exactly one: it does so only
    when the cart was priced and the session created, and the document it
    hands over is the document loaded at its first line with one order more
    at the end of its orders, pending and unpaid, under the id made from the
    clock and with the customer of the request.  Products and categories are
    the loaded ones, and no loaded order is changed, dropped or moved. *)
Theorem create_order_only_appends cfg out w base_url order_req :
  let loaded := read_document (data_file w) in
  let after := create_order cfg out base_url order_req w in
  writes after.2 = writes w
  ∨ ∃ os priced paypal_order o,
      Document.orders loaded = Some os
      ∧ price_order (Document.products loaded) (OrderRequest.items order_req)
        = Return priced
      ∧ (session_of_request cfg out base_url order_req w).1 = Return paypal_order
      ∧ o = order_of_request out order_req priced paypal_order
      ∧ writes after.2
        = writes w
          ++ [FileWrite (Document.mk (Document.products loaded)
                                     (Document.categories loaded)
                                     (Some (os ++ [o])))
                        (disk out)]
      ∧ Order.id o = str_of_int (clock_ms out)
      ∧ Order.status o = "pending_payment"
      ∧ Order.paid o = false
      ∧ Order.customer o = OrderRequest.customer order_req
      ∧ Order.items o = Priced.full_items priced.
Proof.
  intros loaded after. subst loaded after.
  rewrite create_order_run. cbv zeta.
  pose proof (session_of_request_writes cfg out base_url order_req w) as Hwrites.
  destruct (price_order (Document.products (read_document (data_file w)))
                        (OrderRequest.items order_req)) as [priced|e0] eqn:Hpriced;
    [|by left].
  assert (∀ w1, writes w1 = writes w → writes (creation_failed w1) = writes w)
    as Hfailed.
  { intros w1 <-. unfold writes, creation_failed. cbn [journal].
    rewrite List.filter_app. cbn. by rewrite app_nil_r. }
  destruct (session_of_request cfg out base_url order_req w) as [[po|e] w1];
    cbn [fst snd] in *; [|left; by apply Hfailed].
  destruct (list_find _ (PayPalOrder.links po)) as [[k link]|];
    [|left; by apply Hfailed].
  destruct (Document.orders (read_document (data_file w))) as [os|] eqn:Horders;
    [|left; by apply Hfailed].
  right. exists os, priced, po, (order_of_request out order_req priced po).
  cbn [snd]. rewrite save_data_writes, Hwrites. by split_and!.
Qed.

(** X22.  What a stored order was charged and where the gateway returns:
    when a creation stores its order, the checkout request it posted asked
    for the [total_usd] the order records, written with two decimals, its
    return url is the success route with the order's id as [oid], and the
    order records the id of the gateway session that request opened. *)
Theorem stored_order_matches_checkout cfg out w base_url order_req paypal_order k link os :
  Document.orders (read_document (data_file w)) = Some os →
  (session_of_request cfg out base_url order_req w).1 = Return paypal_order →
  list_find (λ link, Link.rel link = "approve") (PayPalOrder.links paypal_order)
  = Some (k, link) →
  disk out = Written →
  let after := create_order cfg out base_url order_req w in
  ∃ o authorization,
    data_file after.2
    = FileJson (Document.set_orders (os ++ [o]) (read_document (data_file w)))
    ∧ HttpCheckout authorization (format_2f (Order.total_usd o))
        (rstrip_slash base_url +:+ "/api/payment/success?oid=" +:+ Order.id o)
        (rstrip_slash base_url +:+ "/api/payment/cancel")
      ∈ journal after.2
    ∧ Order.paypal_order_id o = PayPalOrder.id paypal_order
    ∧ Order.total_usd o = (Order.total_omr o * OMR_TO_USD_RATE)%float.
Proof.
  intros Horders Hsession Hlink Hdisk after. subst after.
  destruct (session_of_request_priced _ _ _ _ _ _ Hsession) as [priced Hpriced].
  destruct (create_order_stored cfg out w base_url order_req priced paypal_order k link
              os Hpriced Horders Hsession Hlink Hdisk) as [_ Hfile].
  assert (∃ authorization evs,
            journal (session_of_request cfg out base_url order_req w).2
            = journal w ++ evs
              ++ [HttpCheckout authorization (format_2f (Priced.total_usd priced))
                    (return_url base_url (str_of_int (clock_ms out)))
                    (cancel_url base_url)]) as (authorization & evs & Hjournal).
  { revert Hsession. unfold session_of_request. rewrite Hpriced.
    apply create_payment_posts. }
  exists (order_of_request out order_req priced paypal_order), authorization.
  split_and!; [exact Hfile| |done|exact (price_order_settlement _ _ _ Hpriced)].
  rewrite create_order_run. cbv zeta. rewrite Hpriced.
  destruct (session_of_request cfg out base_url order_req w) as [[po|e] w1];
    cbn [fst snd] in *; [|discriminate].
  injection Hsession as ->. rewrite Hlink, Horders. cbn [snd].
  unfold save_data. rewrite Hdisk. cbn [snd journal]. rewrite Hjournal.
  rewrite !elem_of_app. left. right. right. apply list_elem_of_singleton. reflexivity.
Qed.

Lemma stored_order_matches_checkout_witness :
  let after := create_order example_cfg example_out "http://testserver/" example_request
                            example_world in
  ∃ o authorization,
    data_file after.2
    = FileJson (Document.set_orders ([example_order] ++ [o])
                                    (read_document (data_file example_world)))
    ∧ HttpCheckout authorization (format_2f (Order.total_usd o))
        (rstrip_slash "http://testserver/" +:+ "/api/payment/success?oid=" +:+ Order.id o)
        (rstrip_slash "http://testserver/" +:+ "/api/payment/cancel")
      ∈ journal after.2
    ∧ Order.paypal_order_id o = PayPalOrder.id example_session
    ∧ Order.total_usd o = (Order.total_omr o * OMR_TO_USD_RATE)%float.
Proof.
  exact (stored_order_matches_checkout example_cfg example_out example_world
           "http://testserver/" example_request example_session 1
           (Link.mk "https://www.sandbox.paypal.com/checkoutnow?token=5O190127TN364715T"
                    "approve")
           [example_order] eq_refl eq_refl eq_refl eq_refl).
Defined.
